(** * Neuroformic: the answer-selection engine of [core/nlp.py]

    A shallow embedding of the class [QuestionAnalyzer] and the properties
    of its question classifier, sentiment estimator, strategy selector,
    option scorer and answer ranker.

    Modelling conventions.
    - Python [str] is [string]; the texts are ASCII, so [str.lower],
      [str.strip] and [str.split] are the ASCII ones.
    - Python [float] is IEEE 754 binary64, i.e. Rocq's primitive [float].
    - Python exceptions are carried by [result]: [Raise name] holds the
      name of the exception class.
    - spaCy and the transformers pipeline are outside the repository: they
      are fields of the analyzer object ([nlp], [sentiment_analyzer]) and
      every theorem quantifies over them. *)

From Stdlib Require Import Bool Arith List Lia ZArith.
From Stdlib Require Import Ascii String.
From Stdlib Require Import Floats Uint63.
Import ListNotations.

Set Warnings "-inexact-float".

Local Open Scope string_scope.
Local Open Scope list_scope.

(** ** Exceptions *)

(** The outcome of a Python expression: a value, or a raised exception
    identified by the name of its class. *)
Inductive result (A : Type) : Type :=
| Ok (a : A)
| Raise (exc : string).
Arguments Ok {A} a.
Arguments Raise {A} exc.

Definition bind {A B : Type} (m : result A) (k : A -> result B) : result B :=
  match m with
  | Ok a => k a
  | Raise e => Raise e
  end.

Notation "x <- m ;; k" := (bind m (fun x => k))
  (at level 61, m at next level, right associativity).

(** A comprehension or loop whose body may raise. *)
Fixpoint mapM {A B : Type} (f : A -> result B) (l : list A) : result (list B) :=
  match l with
  | [] => Ok []
  | x :: r => y <- f x ;; ys <- mapM f r ;; Ok (y :: ys)
  end.

(** ** Python built-ins used by the module *)

Module Py.

(** [c.lower()] on one ASCII character. *)
Definition lower_ascii (c : ascii) : ascii :=
  let n := N_of_ascii c in
  if (65 <=? n)%N && (n <=? 90)%N then ascii_of_N (n + 32) else c.

(** [s.lower()] *)
Fixpoint lower (s : string) : string :=
  match s with
  | EmptyString => EmptyString
  | String c r => String (lower_ascii c) (lower r)
  end.

(** [c.isspace()] on ASCII: TAB, LF, VT, FF, CR, FS, GS, RS, US and space. *)
Definition isspace (c : ascii) : bool :=
  let n := N_of_ascii c in
  ((9 <=? n)%N && (n <=? 13)%N) || ((28 <=? n)%N && (n <=? 32)%N).

(** [s.lstrip()] *)
Fixpoint lstrip (s : string) : string :=
  match s with
  | EmptyString => EmptyString
  | String c r => if isspace c then lstrip r else s
  end.

(** [s.rstrip()] *)
Fixpoint rstrip (s : string) : string :=
  match s with
  | EmptyString => EmptyString
  | String c r =>
      match rstrip r with
      | EmptyString => if isspace c then EmptyString else String c EmptyString
      | r' => String c r'
      end
  end.

(** [s.strip()] *)
Definition strip (s : string) : string := rstrip (lstrip s).

(** [s.endswith(suffix)] *)
Fixpoint endswith (s suffix : string) : bool :=
  if String.eqb s suffix then true
  else match s with
       | EmptyString => false
       | String _ r => endswith r suffix
       end.

(** [s.split()]: the maximal runs of non-space characters.  [cur] is the
    word being read, if any. *)
Fixpoint split_aux (cur : option string) (s : string) : list string :=
  match s with
  | EmptyString =>
      match cur with
      | Some w => [w]
      | None => []
      end
  | String c r =>
      if isspace c then
        match cur with
        | Some w => w :: split_aux None r
        | None => split_aux None r
        end
      else
        match cur with
        | Some w => split_aux (Some (String.append w (String c EmptyString))) r
        | None => split_aux (Some (String c EmptyString)) r
        end
  end.

Definition split (s : string) : list string := split_aux None s.

(** [s.startswith(w)] *)
Fixpoint startswith (s w : string) {struct w} : bool :=
  match w with
  | EmptyString => true
  | String a w' =>
      match s with
      | EmptyString => false
      | String b s' => Ascii.eqb a b && startswith s' w'
      end
  end.

(** [w in s] for two strings: [w] occurs in [s] as a substring. *)
Fixpoint str_in (w s : string) : bool :=
  if startswith s w then true
  else match s with
       | EmptyString => false
       | String _ r => str_in w r
       end.

(** [x in l] for a string and a list of strings. *)
Definition list_in (x : string) (l : list string) : bool :=
  existsb (String.eqb x) l.

(** [any(p(x) for x in l)] *)
Definition any {A : Type} (p : A -> bool) (l : list A) : bool := existsb p l.

(** [sum(1 for x in l if p(x))] *)
Definition count {A : Type} (p : A -> bool) (l : list A) : nat :=
  List.length (filter p l).

(** The float of a Python [int] that is a length or a count (these are
    below [2^63], the bound of [Py_ssize_t]). *)
Definition float_of_nat (n : nat) : float :=
  PrimFloat.of_uint63 (Uint63.of_Z (Z.of_nat n)).

(** [a / b] on two non-negative ints (true division). *)
Definition truediv (a b : nat) : result float :=
  match b with
  | O => Raise "ZeroDivisionError"
  | S _ => Ok (PrimFloat.div (float_of_nat a) (float_of_nat b))
  end.

(** [min(a, b)] on floats: [b] when [b < a], otherwise [a]. *)
Definition min2 (a b : float) : float := if PrimFloat.ltb b a then b else a.

(** [max(a, b)] on floats: [b] when [b > a], otherwise [a]. *)
Definition max2 (a b : float) : float := if PrimFloat.ltb a b then b else a.

(** [max(l)] on a list of floats: the first item, replaced by every later
    item that is greater than the current one; [ValueError] when empty. *)
Definition max (l : list float) : result float :=
  match l with
  | [] => Raise "ValueError"
  | x :: r => Ok (fold_left max2 r x)
  end.

(** [l.index(x)]: the first position whose item equals [x];
    [ValueError] when there is none. *)
Fixpoint index (l : list float) (x : float) : result nat :=
  match l with
  | [] => Raise "ValueError"
  | y :: r => if PrimFloat.eqb y x then Ok O
              else bind (index r x) (fun i => Ok (S i))
  end.

(** [l[i]] for [0 <= i]: [IndexError] out of range. *)
Definition getitem (l : list float) (i : nat) : result float :=
  match nth_error l i with
  | Some x => Ok x
  | None => Raise "IndexError"
  end.

End Py.

(** ** The objects of spaCy that the module reads *)

(** A spaCy token: [token.text], [token.lemma_], [token.pos_],
    [token.is_stop]. *)
Record Token : Type := mkToken {
  text : string;
  lemma_ : string;
  pos_ : string;
  is_stop : bool
}.

(** A spaCy document: [doc.text] and the tokens of [list(doc)]. *)
Record Doc : Type := mkDoc {
  doc_text : string;
  tokens : list Token
}.

(** The dictionary built by [analyze_question]. *)
Record Analysis : Type := mkAnalysis {
  question_type : string;
  sentiment : string;
  keywords : list string;
  answer_strategy : string;
  expected_answer_type : string
}.

(** ** class QuestionAnalyzer *)

Module QuestionAnalyzer.

(** The attributes of [self] after [__init__]: the loaded spaCy model,
    the flag [use_transformers], and the sentiment pipeline.
    [sentiment_analyzer text] stands for the expression
    [self.sentiment_analyzer(text)[0]['label']], which yields a label or
    raises. *)
Record t : Type := mk {
  nlp : string -> Doc;
  use_transformers : bool;
  sentiment_analyzer : string -> result string
}.

Definition question_words : list string :=
  ["what"; "when"; "where"; "who"; "why"; "how"; "which"; "can"; "do"; "is"; "are"].

(** The [if]/[elif] chain inside the loop of [_determine_question_type]. *)
Definition type_of_word (word : string) : string :=
  if String.eqb word "what" then "factual"
  else if String.eqb word "when" then "temporal"
  else if String.eqb word "where" then "spatial"
  else if String.eqb word "who" then "person"
  else if String.eqb word "why" then "reason"
  else if String.eqb word "how" then "process"
  else if Py.list_in word ["can"; "do"; "is"; "are"] then "yes_no"
  else "selection".

(** [[token.text.lower() for token in list(doc)[:3]]] *)
Definition first_words (doc : Doc) : list string :=
  map (fun token => Py.lower (text token)) (firstn 3 (tokens doc)).

(** The loop [for word in question_words: if word in first_words: return ...];
    [None] when the loop ends without returning. *)
Fixpoint scan_question_words (words first : list string) : option string :=
  match words with
  | [] => None
  | word :: rest =>
      if Py.list_in word first then Some (type_of_word word)
      else scan_question_words rest first
  end.

Definition _determine_question_type (doc : Doc) : string :=
  match scan_question_words question_words (first_words doc) with
  | Some ty => ty
  | None =>
      if Py.endswith (Py.strip (doc_text doc)) "?" then "general_question"
      else "statement"
  end.

Definition positive_words : list string :=
  ["good"; "great"; "excellent"; "best"; "positive"; "like"; "love"; "prefer"].

Definition negative_words : list string :=
  ["bad"; "poor"; "worst"; "negative"; "dislike"; "hate"; "avoid"; "terrible"].

(** The rule-based tail of [_analyze_sentiment]. *)
Definition rule_based_sentiment (text : string) : string :=
  let text_lower := Py.lower text in
  let positive_count := Py.count (fun word => Py.str_in word text_lower) positive_words in
  let negative_count := Py.count (fun word => Py.str_in word text_lower) negative_words in
  if Nat.ltb negative_count positive_count then "positive"
  else if Nat.ltb positive_count negative_count then "negative"
  else "neutral".

Definition _analyze_sentiment (self : t) (text : string) : string :=
  if use_transformers self then
    match sentiment_analyzer self text with
    | Ok label => Py.lower label
    | Raise _ => rule_based_sentiment text
    end
  else rule_based_sentiment text.

(** [[kw for kw in keywords if not (kw in seen or seen.add(kw))]] *)
Fixpoint unique_from (seen keywords : list string) : list string :=
  match keywords with
  | [] => []
  | kw :: rest =>
      if Py.list_in kw seen then unique_from seen rest
      else kw :: unique_from (kw :: seen) rest
  end.

Definition _extract_keywords (doc : Doc) : list string :=
  let keywords :=
    map lemma_
      (filter (fun token =>
                 if Py.list_in (pos_ token) ["NOUN"; "PROPN"] && negb (is_stop token) then true
                 else Py.list_in (pos_ token) ["VERB"; "ADJ"] && negb (is_stop token))
              (tokens doc)) in
  unique_from [] keywords.

Definition _determine_answer_strategy
    (question_type : string) (sentiment : string) (keywords : list string) : string :=
  if String.eqb question_type "yes_no" then "prefer_yes"
  else if String.eqb question_type "selection" then "keyword_match"
  else if Py.list_in question_type ["factual"; "temporal"; "spatial"; "person"] then "specific_info"
  else if String.eqb question_type "reason" then "explanation"
  else "balanced".

Definition _determine_expected_answer_type (doc : Doc) (question_type : string) : string :=
  if String.eqb question_type "yes_no" then "boolean"
  else if String.eqb question_type "selection" then "option"
  else if String.eqb question_type "temporal" then "date_time"
  else if String.eqb question_type "spatial" then "location"
  else if String.eqb question_type "person" then "entity"
  else "text".

Definition analyze_question (self : t) (question_text : string) : Analysis :=
  let doc := nlp self question_text in
  let question_type := _determine_question_type doc in
  let sentiment := _analyze_sentiment self question_text in
  let keywords := _extract_keywords doc in
  let answer_strategy := _determine_answer_strategy question_type sentiment keywords in
  {| question_type := question_type;
     sentiment := sentiment;
     keywords := keywords;
     answer_strategy := answer_strategy;
     expected_answer_type := _determine_expected_answer_type doc question_type |}.

Definition positive_markers : list string :=
  ["yes"; "agree"; "strongly agree"; "definitely"; "absolutely"].

Definition negative_markers : list string :=
  ["no"; "disagree"; "strongly disagree"; "definitely not"].

(** [any(word in option.lower() for word in markers)] *)
Definition has_marker (markers : list string) (option_text : string) : bool :=
  Py.any (fun word => Py.str_in word (Py.lower option_text)) markers.

(** The list [option_keywords] of [_score_option]. *)
Definition option_keywords_of (option_doc : Doc) : list string :=
  map lemma_
    (filter (fun token =>
               Py.list_in (pos_ token) ["NOUN"; "VERB"; "ADJ"; "PROPN"]
               && negb (is_stop token))
            (tokens option_doc)).

(** [sum(1 for kw in analysis["keywords"] if kw in option_keywords)] *)
Definition keyword_matches (analysis : Analysis) (option_keywords : list string) : nat :=
  Py.count (fun kw => Py.list_in kw option_keywords) (keywords analysis).

(** The block "Strategy-based scoring" of [_score_option]: the value of
    [score] after it, from its value before. *)
Definition strategy_scoring
    (option_text : string) (option_keywords : list string)
    (analysis : Analysis) (score : float) : result float :=
  if String.eqb (answer_strategy analysis) "prefer_yes" then
    if has_marker positive_markers option_text then Ok (score + 0.3)%float
    else if has_marker negative_markers option_text then Ok (score - 0.2)%float
    else Ok score
  else if String.eqb (answer_strategy analysis) "keyword_match" then
    let matches := keyword_matches analysis option_keywords in
    if Nat.ltb 0 matches then
      ratio <- Py.truediv matches (List.length (keywords analysis)) ;;
      Ok (score + 0.2 * ratio)%float
    else Ok score
  else Ok score.

(** The block "Sentiment matching". *)
Definition sentiment_matching
    (self : t) (option_text : string) (analysis : Analysis) (score : float) : float :=
  let option_sentiment := _analyze_sentiment self option_text in
  if String.eqb option_sentiment (sentiment analysis) then (score + 0.1)%float
  else if (String.eqb (sentiment analysis) "positive" && String.eqb option_sentiment "negative")
          || (String.eqb (sentiment analysis) "negative" && String.eqb option_sentiment "positive")
       then (score - 0.1)%float
  else score.

(** The block "Length preference". *)
Definition length_preference (option_text : string) (score : float) : float :=
  let words := List.length (Py.split option_text) in
  if Nat.leb 5 words && Nat.leb words 25 then (score + 0.05)%float else score.

(** [max(0.0, min(1.0, score))] *)
Definition clamp (score : float) : float :=
  Py.max2 0.0%float (Py.min2 1.0%float score).

Definition _score_option
    (self : t) (option_text : string) (question : string) (analysis : Analysis)
    : result float :=
  let score := 0.5%float in
  let option_doc := nlp self option_text in
  let option_keywords := option_keywords_of option_doc in
  score <- strategy_scoring option_text option_keywords analysis score ;;
  let score := sentiment_matching self option_text analysis score in
  let score := length_preference option_text score in
  Ok (clamp score).

Definition predict_best_answer
    (self : t) (question_text : string) (options : list string)
    : result (nat * float) :=
  let analysis := analyze_question self question_text in
  scores <- mapM (fun option_text =>
                    _score_option self option_text question_text analysis)
                 options ;;
  highest <- Py.max scores ;;
  best_index <- Py.index scores highest ;;
  confidence <- Py.getitem scores best_index ;;
  Ok (best_index, confidence).

End QuestionAnalyzer.


(** ** Predicates on scores *)

(** [x] is not a NaN: it compares with itself. *)
Definition ordered (x : float) : Prop := PrimFloat.leb x x = true.

(** [x] lies in the closed interval from 0.0 to 1.0. *)
Definition unit_interval (x : float) : Prop :=
  PrimFloat.leb 0.0%float x = true /\ PrimFloat.leb x 1.0%float = true.

(** ** The question-word table of the specification *)

(** The table of the classifier as the specification words it, in the
    order of its word list: each question word with its type. *)
Definition spec_question_type_table : list (string * string) :=
  [("what", "factual"); ("when", "temporal"); ("where", "spatial");
   ("who", "person"); ("why", "reason"); ("how", "process");
   ("which", "selection"); ("can", "yes_no"); ("do", "yes_no");
   ("is", "yes_no"); ("are", "yes_no")].

(** ** Sample analyzers *)

(** A stand-in for the spaCy model: one token per whitespace-separated
    word, every token a non-stop noun that is its own lemma. *)
Definition whitespace_nlp (s : string) : Doc :=
  mkDoc s (map (fun w => mkToken w w "NOUN" false) (Py.split s)).

(** An analyzer created with [use_transformers=False]. *)
Definition fallback_analyzer : QuestionAnalyzer.t :=
  QuestionAnalyzer.mk whitespace_nlp false (fun _ => Raise "RuntimeError").

(** An analyzer whose sentiment pipeline always raises. *)
Definition failing_analyzer : QuestionAnalyzer.t :=
  QuestionAnalyzer.mk whitespace_nlp true (fun _ => Raise "RuntimeError").

(** An analysis whose strategy is [prefer_yes]. *)
Definition prefer_yes_analysis : Analysis :=
  mkAnalysis "yes_no" "negative" [] "prefer_yes" "boolean".

(** An analysis whose strategy is [keyword_match], without keywords. *)
Definition no_keyword_analysis : Analysis :=
  mkAnalysis "selection" "neutral" [] "keyword_match" "option".

(** ** QuestionAnalyzer.__init__ *)

Module Construction.

(** What the constructor meets when it loads its models:
    [spacy_load] is [spacy.load(NLP_MODEL)];
    [spacy_download_load] is [spacy.cli.download(NLP_MODEL)] followed by
    the second [spacy.load(NLP_MODEL)];
    [load_sentiment] is [pipeline("sentiment-analysis")], whose value is
    read as in [QuestionAnalyzer.sentiment_analyzer];
    [load_classifier] is [pipeline("text-classification", ...)]. *)
Record Loaders : Type := mkLoaders {
  spacy_load : result (string -> Doc);
  spacy_download_load : result (string -> Doc);
  load_sentiment : result (string -> result string);
  load_classifier : result unit
}.

(** Reading the attribute [self.sentiment_analyzer] when [__init__] never
    assigned it. *)
Definition unset_sentiment_analyzer : string -> result string :=
  fun _ => Raise "AttributeError".

Definition __init__ (env : Loaders) (use_transformers : bool) : result QuestionAnalyzer.t :=
  nlp <- match spacy_load env with
         | Ok model => Ok model
         | Raise _ => spacy_download_load env
         end ;;
  if use_transformers then
    match load_sentiment env with
    | Ok sentiment_analyzer =>
        match load_classifier env with
        | Ok _ => Ok (QuestionAnalyzer.mk nlp true sentiment_analyzer)
        | Raise _ => Ok (QuestionAnalyzer.mk nlp false sentiment_analyzer)
        end
    | Raise _ => Ok (QuestionAnalyzer.mk nlp false unset_sentiment_analyzer)
    end
  else Ok (QuestionAnalyzer.mk nlp false unset_sentiment_analyzer).

End Construction.

(** ** utils/helpers.py *)

Module Helpers.

(** The characters of the class of [sanitize_filename]: backslash, slash,
    star, question mark, colon, double quote, less, greater, bar. *)
Definition invalid_chars : list ascii :=
  ["092"; "/"; "*"; "?"; ":"; "034"; "<"; ">"; "|"]%char.

Definition is_invalid (c : ascii) : bool := existsb (Ascii.eqb c) invalid_chars.

(** [re.sub(class, '_', filename)]: every character of the class is
    replaced by an underscore. *)
Fixpoint sanitize_filename (filename : string) : string :=
  match filename with
  | EmptyString => EmptyString
  | String c rest =>
      String (if is_invalid c then "_"%char else c) (sanitize_filename rest)
  end.

(** [s[:stop]]: a negative [stop] counts from the end. *)
Definition slice_to (s : string) (stop : Z) : string :=
  let n := Z.of_nat (String.length s) in
  let stop := if (stop <? 0)%Z then Z.max (n + stop) 0 else Z.min stop n in
  String.substring 0 (Z.to_nat stop) s.

Definition truncate_text (text : string) (max_length : Z) : string :=
  if (Z.of_nat (String.length text) <=? max_length)%Z then text
  else String.append (slice_to text (max_length - 3)) "...".

End Helpers.

(** ** class FormHandler: the radio groups *)

Module FormHandler.

(** How [element.click()] ends: it returns, it raises
    [ElementNotInteractableException], or it raises something else. *)
Inductive click_outcome : Type :=
| Clicked
| NotInteractable
| ClickError (exc : string).

(** What Selenium answers for one element of the page:
    [attr_id], [attr_name], [attr_value] are [get_attribute] of "id",
    "name", "value" ([None] or a string);
    [label_text] is [driver.find_element(By.CSS_SELECTOR,
    "label[for='<id>']").text];
    [sibling_text] is [radio.find_element(By.XPATH,
    "following-sibling::text()[1]").strip()];
    [scroll_into_view] and [script_click] are the two [execute_script]
    calls on the element; [click] is [element.click()]. *)
Record WebElement : Type := mkElement {
  attr_id : option string;
  attr_name : option string;
  attr_value : option string;
  label_text : result string;
  sibling_text : result string;
  scroll_into_view : result unit;
  click : click_outcome;
  script_click : result unit
}.

(** The truth value of an attribute: neither [None] nor empty. *)
Definition truthy (attribute : option string) : bool :=
  match attribute with
  | Some value => negb (String.eqb value "")
  | None => false
  end.

(** The body of the loop of [extract_options_from_radio_group]: the text
    found for one radio button, empty when the three methods find none. *)
Definition option_text_of (radio : WebElement) : string :=
  let option_text := "" in
  let option_text :=
    if truthy (attr_id radio) then
      match label_text radio with
      | Ok label => Py.strip label
      | Raise _ => option_text
      end
    else option_text in
  let option_text :=
    if String.eqb option_text "" then
      match sibling_text radio with
      | Ok sibling => sibling
      | Raise _ => option_text
      end
    else option_text in
  if String.eqb option_text "" then
    match attr_value radio with
    | Some value => value
    | None => ""
    end
  else option_text.

Fixpoint extract_options_from_radio_group (radio_buttons : list WebElement) : list string :=
  match radio_buttons with
  | [] => []
  | radio :: rest =>
      let option_text := option_text_of radio in
      if String.eqb option_text "" then extract_options_from_radio_group rest
      else option_text :: extract_options_from_radio_group rest
  end.

(** [radio_groups[name].append(radio)], with a new empty list first when
    the name is not a key; the dictionary keeps the order of insertion. *)
Fixpoint add_to_group
    (name : string) (radio : WebElement) (radio_groups : list (string * list WebElement))
    : list (string * list WebElement) :=
  match radio_groups with
  | [] => [(name, [radio])]
  | (key, radios) :: rest =>
      if String.eqb key name then (key, radios ++ [radio]) :: rest
      else (key, radios) :: add_to_group name radio rest
  end.

(** The first loop of [identify_radio_groups]. *)
Definition group_by_name (all_radio_buttons : list WebElement)
    : list (string * list WebElement) :=
  fold_left (fun radio_groups radio =>
               match attr_name radio with
               | Some name =>
                   if negb (String.eqb name "") then add_to_group name radio radio_groups
                   else radio_groups
               | None => radio_groups
               end)
            all_radio_buttons [].

(** An entry of the list returned by [identify_radio_groups]. *)
Record RadioGroup : Type := mkGroup {
  name : string;
  question : string;
  options : list string;
  elements : list WebElement
}.

(** An entry of [actions["details"]]. *)
Record Detail : Type := mkDetail {
  detail_type : string;
  detail_question : string;
  selected_option : string;
  confidence : float
}.

(** The dictionary [actions] of [auto_fill_form]. *)
Record Actions : Type := mkActions {
  radio_groups_answered : nat;
  checkboxes_checked : nat;
  text_inputs_filled : nat;
  dropdowns_selected : nat;
  textareas_filled : nat;
  submitted : bool;
  details : list Detail
}.

Definition initial_actions : Actions := mkActions 0 0 0 0 0 false [].

(** [actions["radio_groups_answered"] += 1] *)
Definition count_answer (actions : Actions) : Actions :=
  mkActions (S (radio_groups_answered actions)) (checkboxes_checked actions)
    (text_inputs_filled actions) (dropdowns_selected actions)
    (textareas_filled actions) (submitted actions) (details actions).

(** [actions["details"].append(detail)] *)
Definition record_detail (actions : Actions) (detail : Detail) : Actions :=
  mkActions (radio_groups_answered actions) (checkboxes_checked actions)
    (text_inputs_filled actions) (dropdowns_selected actions)
    (textareas_filled actions) (submitted actions) (details actions ++ [detail]).

(** [actions["submitted"] = True] *)
Definition set_submitted (actions : Actions) : Actions :=
  mkActions (radio_groups_answered actions) (checkboxes_checked actions)
    (text_inputs_filled actions) (dropdowns_selected actions)
    (textareas_filled actions) true (details actions).

Section Handler.

(** [self.nlp], the analyzer of the handler. *)
Variable nlp : QuestionAnalyzer.t.

(** The method [extract_question_from_element], which reads labels,
    parents and headings of the page and, failing those, the screen
    through OCR: its answer for each element. *)
Variable extract_question_from_element : WebElement -> string.

(** The second loop of [identify_radio_groups], for one item of the
    dictionary. *)
Definition radio_group_of (item : string * list WebElement) : list RadioGroup :=
  let (name, radios) := item in
  if Nat.ltb 1 (List.length radios) then
    match radios with
    | [] => []
    | first :: _ =>
        let question_text := extract_question_from_element first in
        let options := extract_options_from_radio_group radios in
        if negb (String.eqb question_text "")
           && negb (match options with [] => true | _ :: _ => false end)
        then [mkGroup name question_text options radios]
        else []
    end
  else [].

Definition identify_radio_groups (all_radio_buttons : list WebElement) : list RadioGroup :=
  flat_map radio_group_of (group_by_name all_radio_buttons).

(** The body of the loop over the radio groups in [auto_fill_form]: the
    dictionary [actions] after the group, whether the [try] block ended
    or an exception took it to the handler that only logs. *)
Definition answer_group (actions : Actions) (group : RadioGroup) : Actions :=
  match QuestionAnalyzer.predict_best_answer nlp (question group) (options group) with
  | Raise _ => actions
  | Ok (best_index, confidence) =>
      if Nat.ltb best_index (List.length (elements group)) then
        match nth_error (elements group) best_index with
        | None => actions
        | Some element =>
            match scroll_into_view element with
            | Raise _ => actions
            | Ok _ =>
                match click element with
                | Clicked =>
                    let actions := count_answer actions in
                    match nth_error (options group) best_index with
                    | Some option_text =>
                        record_detail actions
                          (mkDetail "radio" (question group) option_text confidence)
                    | None => actions
                    end
                | NotInteractable =>
                    match script_click element with
                    | Ok _ => count_answer actions
                    | Raise _ => actions
                    end
                | ClickError _ => actions
                end
            end
        end
      else actions
  end.

(** The block "Submit the form if requested"; [submit_buttons] is the
    outcome of [driver.find_elements] for the submit buttons. *)
Definition submit_form
    (submit_buttons : result (list WebElement)) (actions : Actions) : Actions :=
  match submit_buttons with
  | Ok (submit_button :: _) =>
      match scroll_into_view submit_button with
      | Ok _ =>
          match click submit_button with
          | Clicked => set_submitted actions
          | NotInteractable => actions
          | ClickError _ => actions
          end
      | Raise _ => actions
      end
  | Ok [] => actions
  | Raise _ => actions
  end.

Definition auto_fill_form
    (all_radio_buttons : list WebElement) (submit_buttons : result (list WebElement))
    (submit : bool) : Actions :=
  let radio_groups := identify_radio_groups all_radio_buttons in
  let actions := fold_left answer_group radio_groups initial_actions in
  if submit then submit_form submit_buttons actions else actions.

End Handler.

End FormHandler.

(** ** Radio buttons by name *)

(** The attribute "name" of the radio button is [group_name]. *)
Definition has_name (group_name : string) (radio : FormHandler.WebElement) : bool :=
  match FormHandler.attr_name radio with
  | Some value => String.eqb value group_name
  | None => false
  end.

(** ** Sample page *)

(** A radio button of the group [group] with the identifier [ident],
    whose label reads [label]; every action on it succeeds. *)
Definition labelled_radio (group ident label : string) : FormHandler.WebElement :=
  FormHandler.mkElement (Some ident) (Some group) (Some ident)
    (Ok label) (Raise "InvalidSelectorException") (Ok tt) FormHandler.Clicked (Ok tt).

(** A radio button of the group [group] without identifier, label or
    value. *)
Definition bare_radio (group : string) : FormHandler.WebElement :=
  FormHandler.mkElement None (Some group) None
    (Raise "NoSuchElementException") (Raise "InvalidSelectorException")
    (Ok tt) FormHandler.Clicked (Ok tt).

(** The three radio buttons of a question about a policy. *)
Definition policy_radios : list FormHandler.WebElement :=
  [labelled_radio "policy" "p1" " Strongly agree ";
   labelled_radio "policy" "p2" "Strongly disagree";
   labelled_radio "policy" "p3" "No opinion"].

(** The loaders of a machine with spaCy's model and no transformers
    model. *)
Definition offline_loaders : Construction.Loaders :=
  Construction.mkLoaders (Ok whitespace_nlp) (Raise "SystemExit")
    (Raise "OSError") (Raise "OSError").

(** ** Order facts on binary64 *)

Module FloatOrder.

Ltac sf_cases :=
  repeat match goal with
         | f : spec_float |- _ => destruct f as [ [|] | [|] | | [|] ? ? ]
         end.

Ltac sf_compare :=
  cbv beta iota delta [SFleb SFltb SFeqb SFcompare] in *;
  repeat match goal with
         | H : context [Pos.compare_cont Eq ?a ?b] |- _ =>
             change (Pos.compare_cont Eq a b) with (Pos.compare a b) in *
         | |- context [Pos.compare_cont Eq ?a ?b] =>
             change (Pos.compare_cont Eq a b) with (Pos.compare a b) in *
         end;
  repeat match goal with
         | H : context [Z.compare ?a ?b] |- _ => destruct (Z.compare_spec a b); subst
         | |- context [Z.compare ?a ?b] => destruct (Z.compare_spec a b); subst
         | H : context [Pos.compare ?a ?b] |- _ => destruct (Pos.compare_spec a b); subst
         | |- context [Pos.compare ?a ?b] => destruct (Pos.compare_spec a b); subst
         end;
  simpl in *; try discriminate; try reflexivity; try lia.

Lemma SFleb_trans (a b c : spec_float) :
  SFleb a b = true -> SFleb b c = true -> SFleb a c = true.
Proof. intros Hab Hbc. sf_cases; sf_compare. Qed.

Lemma SFltb_leb (a b : spec_float) : SFltb a b = true -> SFleb a b = true.
Proof. unfold SFltb, SFleb. destruct (SFcompare a b) as [[ | | ]|]; easy. Qed.

Lemma SFleb_total (a b : spec_float) :
  SFleb a a = true -> SFleb b b = true -> SFltb a b = false -> SFleb b a = true.
Proof. intros Ha Hb Hab. sf_cases; sf_compare. Qed.

Lemma SFeqb_refl (a : spec_float) : SFleb a a = true -> SFeqb a a = true.
Proof. intros Ha. sf_cases; sf_compare. Qed.

Lemma SFleb_neq_ltb (a b : spec_float) :
  SFleb a b = true -> SFeqb a b = false -> SFltb a b = true.
Proof. unfold SFltb, SFleb, SFeqb. destruct (SFcompare a b) as [[ | | ]|]; easy. Qed.

Lemma SFltb_eqb_r (a b c : spec_float) :
  SFltb a b = true -> SFeqb c b = true -> SFltb a c = true.
Proof. intros Hab Hcb. sf_cases; sf_compare. Qed.

Lemma SFleb_eqb_r (a b c : spec_float) :
  SFleb a b = true -> SFeqb c b = true -> SFleb a c = true.
Proof. intros Hab Hcb. sf_cases; sf_compare. Qed.

Lemma SFleb_ordered_r (a b : spec_float) : SFleb a b = true -> SFleb b b = true.
Proof. intros Hab. sf_cases; sf_compare. Qed.

(** The same facts on primitive floats, through the specification of the
    comparisons. *)

Ltac to_spec :=
  rewrite ?FloatAxioms.ltb_spec, ?FloatAxioms.leb_spec, ?FloatAxioms.eqb_spec in *.

Lemma ltb_leb (x y : float) : PrimFloat.ltb x y = true -> PrimFloat.leb x y = true.
Proof. to_spec. apply SFltb_leb. Qed.

Lemma leb_trans (x y z : float) :
  PrimFloat.leb x y = true -> PrimFloat.leb y z = true -> PrimFloat.leb x z = true.
Proof. to_spec. apply SFleb_trans. Qed.

Lemma leb_total (x y : float) :
  ordered x -> ordered y -> PrimFloat.ltb x y = false -> PrimFloat.leb y x = true.
Proof. unfold ordered. to_spec. apply SFleb_total. Qed.

Lemma eqb_refl (x : float) : ordered x -> PrimFloat.eqb x x = true.
Proof. unfold ordered. to_spec. apply SFeqb_refl. Qed.

Lemma leb_neq_ltb (x y : float) :
  PrimFloat.leb x y = true -> PrimFloat.eqb x y = false -> PrimFloat.ltb x y = true.
Proof. to_spec. apply SFleb_neq_ltb. Qed.

Lemma ltb_eqb_r (x y z : float) :
  PrimFloat.ltb x y = true -> PrimFloat.eqb z y = true -> PrimFloat.ltb x z = true.
Proof. to_spec. apply SFltb_eqb_r. Qed.

Lemma leb_eqb_r (x y z : float) :
  PrimFloat.leb x y = true -> PrimFloat.eqb z y = true -> PrimFloat.leb x z = true.
Proof. to_spec. apply SFleb_eqb_r. Qed.

Lemma unit_interval_ordered (x : float) : unit_interval x -> ordered x.
Proof. unfold unit_interval, ordered. intros [H _]. to_spec. now apply SFleb_ordered_r in H. Qed.

Lemma ordered_max2 (x y : float) : ordered x -> ordered y -> ordered (Py.max2 x y).
Proof. unfold Py.max2. now destruct (PrimFloat.ltb x y). Qed.

Lemma max2_ge_l (x y : float) : ordered x -> PrimFloat.leb x (Py.max2 x y) = true.
Proof.
  unfold Py.max2. intros Hx.
  destruct (PrimFloat.ltb x y) eqn:E; [now apply ltb_leb | exact Hx].
Qed.

Lemma max2_ge_r (x y : float) :
  ordered x -> ordered y -> PrimFloat.leb y (Py.max2 x y) = true.
Proof.
  unfold Py.max2. intros Hx Hy.
  destruct (PrimFloat.ltb x y) eqn:E; [exact Hy | now apply leb_total].
Qed.

End FloatOrder.

(** ** Facts on the built-ins *)

Module PyFacts.

Import FloatOrder.

Lemma bind_ok {A B : Type} (m : result A) (k : A -> result B) (a : A) :
  m = Ok a -> bind m k = k a.
Proof. now intros ->. Qed.

(** A loop whose body never raises builds the list of its values. *)
Lemma mapM_total {A B : Type} (f : A -> result B) (g : A -> B) (l : list A) :
  (forall x, f x = Ok (g x)) -> mapM f l = Ok (map g l).
Proof.
  intros Hf. induction l as [|x l IH]; simpl; [reflexivity|].
  now rewrite Hf, IH.
Qed.

(** [max] returns an item of the list. *)
Lemma fold_max2_In (r : list float) (x : float) : In (fold_left Py.max2 r x) (x :: r).
Proof.
  revert x. induction r as [|y r IH]; intros x; simpl; [now left|].
  destruct (IH (Py.max2 x y)) as [H|H]; [|now right; right].
  rewrite <- H. unfold Py.max2. destruct (PrimFloat.ltb x y); auto.
Qed.

(** [max] returns an upper bound of the list. *)
Lemma fold_max2_ge (r : list float) (x : float) :
  Forall ordered (x :: r) ->
  forall s, In s (x :: r) -> PrimFloat.leb s (fold_left Py.max2 r x) = true.
Proof.
  revert x. induction r as [|y r IH]; intros x Hall s Hs.
  - inversion Hall; subst. destruct Hs as [<-|[]]. assumption.
  - inversion Hall as [|? ? Hx Hyr]; subst. inversion Hyr as [|? ? Hy Hr]; subst.
    simpl.
    assert (Hall' : Forall ordered (Py.max2 x y :: r))
      by (constructor; [now apply ordered_max2 | assumption]).
    destruct Hs as [<-|[<-|Hs]].
    + apply leb_trans with (Py.max2 x y); [now apply max2_ge_l|].
      apply (IH _ Hall'). now left.
    + apply leb_trans with (Py.max2 x y); [now apply max2_ge_r|].
      apply (IH _ Hall'). now left.
    + apply (IH _ Hall'). now right.
Qed.

(** [index] finds an item that is in the list, at its first position. *)
Lemma index_first (l : list float) (m : float) :
  In m l -> ordered m ->
  exists i c, Py.index l m = Ok i /\ nth_error l i = Some c
              /\ PrimFloat.eqb c m = true
              /\ forall j s, j < i -> nth_error l j = Some s -> PrimFloat.eqb s m = false.
Proof.
  intros Hin Hm. induction l as [|y l IH]; [contradiction|].
  simpl. destruct (PrimFloat.eqb y m) eqn:E.
  - exists 0, y. repeat split; auto. intros j s Hj. lia.
  - destruct Hin as [->|Hin]; [rewrite (eqb_refl _ Hm) in E; discriminate|].
    destruct (IH Hin) as (i & c & Hi & Hc & Hcm & Hlt).
    exists (S i), c. rewrite Hi. simpl. repeat split; auto.
    intros [|j] s Hj Hs; simpl in Hs.
    + now injection Hs as <-.
    + apply (Hlt j); [lia | assumption].
Qed.

(** The three steps [max], [index], subscript of [predict_best_answer] on a
    non-empty list without NaN: the result is the first position of a
    greatest item, and that item. *)
Lemma argmax_first (l : list float) :
  l <> [] -> Forall ordered l ->
  exists i c,
    (highest <- Py.max l ;; best <- Py.index l highest ;;
     conf <- Py.getitem l best ;; Ok (best, conf)) = Ok (i, c)
    /\ nth_error l i = Some c
    /\ (forall s, In s l -> PrimFloat.leb s c = true)
    /\ (forall j s, j < i -> nth_error l j = Some s -> PrimFloat.ltb s c = true).
Proof.
  intros Hne Hall. destruct l as [|x r]; [congruence|].
  pose (m := fold_left Py.max2 r x).
  assert (Hin : In m (x :: r)) by apply fold_max2_In.
  assert (Hge : forall s, In s (x :: r) -> PrimFloat.leb s m = true)
    by (apply fold_max2_ge; assumption).
  assert (Hm : ordered m) by (rewrite Forall_forall in Hall; now apply Hall).
  destruct (index_first (x :: r) m Hin Hm) as (i & c & Hi & Hc & Hcm & Hlt).
  exists i, c. split; [|split; [exact Hc|split]].
  - unfold Py.max. fold m. cbn [bind]. rewrite Hi. cbn [bind].
    unfold Py.getitem. now rewrite Hc.
  - intros s Hs. apply leb_eqb_r with m; auto.
  - intros j s Hj Hs. apply ltb_eqb_r with m; [|assumption].
    apply leb_neq_ltb; [|now apply (Hlt j)].
    apply Hge. now apply nth_error_In with j.
Qed.

(** [str_in] is the substring test. *)
Lemma startswith_iff (s w : string) :
  Py.startswith s w = true <-> exists b, s = String.append w b.
Proof.
  revert s. induction w as [|c w IH]; intros s; simpl.
  - split; [exists s; reflexivity | reflexivity].
  - destruct s as [|d s].
    + split; [discriminate | intros [b Hb]; discriminate].
    + destruct (Ascii.eqb_spec c d) as [->|Hcd]; simpl.
      * rewrite IH. split; intros [b Hb]; exists b; [now rewrite Hb | now injection Hb].
      * split; [discriminate | intros [b Hb]; injection Hb; congruence].
Qed.

Lemma str_in_iff (w s : string) :
  Py.str_in w s = true <-> exists a b, s = String.append a (String.append w b).
Proof.
  induction s as [|d s IH]; simpl Py.str_in.
  - destruct (Py.startswith "" w) eqn:E.
    + split; [|reflexivity]. intros _. apply startswith_iff in E.
      destruct E as [b Hb]. now exists "", b.
    + split; [discriminate|]. intros (a & b & H).
      destruct a; simpl in H; [|discriminate].
      assert (Py.startswith "" w = true) by (apply startswith_iff; now exists b).
      congruence.
  - destruct (Py.startswith (String d s) w) eqn:E.
    + split; [|reflexivity]. intros _. apply startswith_iff in E.
      destruct E as [b Hb]. now exists "", b.
    + rewrite IH. split.
      * intros (a & b & ->). now exists (String d a), b.
      * intros (a & b & H). destruct a as [|d' a]; simpl in H.
        -- assert (Py.startswith (String d s) w = true)
             by (apply startswith_iff; now exists b).
           congruence.
        -- injection H as -> ->. now exists a, b.
Qed.

End PyFacts.

(** ** The option scorer *)

Import QuestionAnalyzer.

Section Scorer.

Import FloatOrder.

Variable self : QuestionAnalyzer.t.

(** Without the pipeline, or when it raises on the text, the sentiment is
    the rule-based one. *)
Lemma analyze_sentiment_rule (text : string) :
  use_transformers self = false
  \/ (exists exc, sentiment_analyzer self text = Raise exc) ->
  _analyze_sentiment self text = rule_based_sentiment text.
Proof.
  unfold _analyze_sentiment. intros [-> | [exc ->]]; [reflexivity|].
  now destruct (use_transformers self).
Qed.

(** The clamp ends in the unit interval, whatever the score is (also a NaN
    or an infinity). *)
Lemma clamp_unit_interval (score : float) : unit_interval (clamp score).
Proof.
  unfold clamp, Py.max2, Py.min2, unit_interval.
  destruct (PrimFloat.ltb score 1.0) eqn:Hhi.
  - destruct (PrimFloat.ltb 0.0 score) eqn:Hlo.
    + split; now apply ltb_leb.
    + split; reflexivity.
  - split; reflexivity.
Qed.

(** The count of matching keywords is at most the number of keywords. *)
Lemma keyword_matches_le (analysis : Analysis) (option_keywords : list string) :
  keyword_matches analysis option_keywords <= List.length (keywords analysis).
Proof. unfold keyword_matches, Py.count. apply filter_length_le. Qed.

Lemma truediv_ok (a b : nat) :
  0 < b -> Py.truediv a b = Ok (Py.float_of_nat a / Py.float_of_nat b)%float.
Proof. destruct b; [lia | reflexivity]. Qed.

(** The strategy block never raises. *)
Lemma strategy_scoring_total
    (option_text : string) (option_keywords : list string)
    (analysis : Analysis) (score : float) :
  exists score', strategy_scoring option_text option_keywords analysis score = Ok score'.
Proof.
  unfold strategy_scoring.
  destruct (String.eqb (answer_strategy analysis) "prefer_yes").
  - destruct (has_marker positive_markers option_text); [eauto|].
    destruct (has_marker negative_markers option_text); eauto.
  - destruct (String.eqb (answer_strategy analysis) "keyword_match"); [|eauto].
    destruct (Nat.ltb 0 (keyword_matches analysis option_keywords)) eqn:E; [|eauto].
    apply Nat.ltb_lt in E.
    pose proof (keyword_matches_le analysis option_keywords) as Hle.
    rewrite truediv_ok by lia. cbn [bind]. eauto.
Qed.

Lemma score_option_total (option_text question : string) (analysis : Analysis) :
  exists score, _score_option self option_text question analysis = Ok score
                /\ unit_interval score.
Proof.
  unfold _score_option.
  destruct (strategy_scoring_total option_text
              (option_keywords_of (nlp self option_text)) analysis 0.5%float)
    as [score' ->].
  cbn [bind]. eexists. split; [reflexivity | apply clamp_unit_interval].
Qed.

End Scorer.

(** C6. For every analyzer, option text, question text and analysis record
    (any strategy, sentiment and keywords), [_score_option] returns a
    score, and the score is at least 0.0 and at most 1.0. *)
Theorem score_option_in_unit_interval
    (self : QuestionAnalyzer.t) (option_text question : string) (analysis : Analysis) :
  exists score,
    _score_option self option_text question analysis = Ok score
    /\ PrimFloat.leb 0.0%float score = true
    /\ PrimFloat.leb score 1.0%float = true.
Proof.
  destruct (score_option_total self option_text question analysis) as (score & H & H0 & H1).
  now exists score.
Qed.

(** The extreme scores: every bonus at once, and every penalty at once. *)
Example score_option_extremes :
  _score_option fallback_analyzer "yes I definitely agree it is great" "Do you like it?"
    (mkAnalysis "yes_no" "positive" ["like"] "prefer_yes" "boolean")
  = Ok (0.5 + 0.3 + 0.1 + 0.05)%float
  /\ _score_option fallback_analyzer "no bad" "Do you like it?"
       (mkAnalysis "yes_no" "positive" ["like"] "prefer_yes" "boolean")
     = Ok (0.5 - 0.2 - 0.1)%float
  /\ _score_option fallback_analyzer "policy one" "Which policy?"
       (mkAnalysis "selection" "neutral" ["policy"] "keyword_match" "option")
     = Ok (0.5 + 0.2 * (1 / 1) + 0.1)%float.
Proof. repeat split; vm_compute; reflexivity. Qed.

(** C8. In the [keyword_match] branch the division by the number of
    keywords is guarded: a positive count of matches needs a non-empty
    keyword list; the strategy block and [_score_option] never raise (so
    no [ZeroDivisionError]); the bonus is added exactly when the count is
    positive; and with no keywords the branch leaves the score as it is. *)
Theorem keyword_match_division_guarded
    (self : QuestionAnalyzer.t) (option_text question : string)
    (option_keywords : list string) (analysis : Analysis) (score : float) :
  let matches := keyword_matches analysis option_keywords in
  (0 < matches -> keywords analysis <> [])
  /\ (forall exc, strategy_scoring option_text option_keywords analysis score <> Raise exc)
  /\ (forall exc, _score_option self option_text question analysis <> Raise exc)
  /\ (answer_strategy analysis = "keyword_match" ->
      strategy_scoring option_text option_keywords analysis score
      = if Nat.ltb 0 matches
        then Ok (score + 0.2 * (Py.float_of_nat matches
                                / Py.float_of_nat (List.length (keywords analysis))))%float
        else Ok score)
  /\ (answer_strategy analysis = "keyword_match" -> keywords analysis = [] ->
      strategy_scoring option_text option_keywords analysis score = Ok score).
Proof.
  intros matches.
  pose proof (keyword_matches_le analysis option_keywords) as Hle. fold matches in Hle.
  assert (Hbranch : answer_strategy analysis = "keyword_match" ->
      strategy_scoring option_text option_keywords analysis score
      = if Nat.ltb 0 matches
        then Ok (score + 0.2 * (Py.float_of_nat matches
                                / Py.float_of_nat (List.length (keywords analysis))))%float
        else Ok score).
  { intros Hs. unfold strategy_scoring. rewrite Hs. cbn [String.eqb Ascii.eqb Bool.eqb].
    fold matches. destruct (Nat.ltb 0 matches) eqn:E; [|reflexivity].
    apply Nat.ltb_lt in E. now rewrite truediv_ok by lia. }
  repeat split.
  - intros Hm Hk. rewrite Hk in Hle. simpl in Hle. lia.
  - intros exc H.
    destruct (strategy_scoring_total option_text option_keywords analysis score) as [s' Hs'].
    congruence.
  - intros exc H.
    destruct (score_option_total self option_text question analysis) as (s' & Hs' & _).
    congruence.
  - exact Hbranch.
  - intros Hs Hk. rewrite (Hbranch Hs).
    assert (matches = 0) as -> by (rewrite Hk in Hle; simpl in Hle; lia).
    reflexivity.
Qed.

(** With no keywords in the analysis the [keyword_match] branch adds
    nothing, whatever the option's own keywords are. *)
Example keyword_match_without_keywords :
  strategy_scoring "the first policy" ["policy"] no_keyword_analysis 0.5%float = Ok 0.5%float
  /\ _score_option fallback_analyzer "the first policy" "Which policy?" no_keyword_analysis
     = Ok (0.5 + 0.1)%float.
Proof. repeat split; vm_compute; reflexivity. Qed.

(** C2, as the code has it.  Under [prefer_yes] the positive and the
    negative check are the two arms of one [if]/[elif]: an option with a
    positive marker gets +0.3 and the negative check is not evaluated,
    also when a negative marker occurs in it; -0.2 is applied only when
    no positive marker occurs. *)
Theorem prefer_yes_checks_exclusive
    (option_text : string) (option_keywords : list string)
    (analysis : Analysis) (score : float) :
  answer_strategy analysis = "prefer_yes" ->
  let positive :=
    has_marker ["yes"; "agree"; "strongly agree"; "definitely"; "absolutely"] option_text in
  let negative :=
    has_marker ["no"; "disagree"; "strongly disagree"; "definitely not"] option_text in
  let after := strategy_scoring option_text option_keywords analysis score in
  (positive = true -> after = Ok (score + 0.3)%float)
  /\ (positive = false -> negative = true -> after = Ok (score - 0.2)%float)
  /\ (positive = false -> negative = false -> after = Ok score).
Proof.
  intros Hs positive negative after.
  assert (Hafter : after = if positive then Ok (score + 0.3)%float
                           else if negative then Ok (score - 0.2)%float
                           else Ok score).
  { unfold after, strategy_scoring. now rewrite Hs. }
  rewrite Hafter. repeat split.
  - now intros ->.
  - now intros -> ->.
  - now intros -> ->.
Qed.

Lemma prefer_yes_checks_exclusive_witness :
  let after := strategy_scoring "Strongly disagree" [] prefer_yes_analysis 0.5%float in
  answer_strategy prefer_yes_analysis = "prefer_yes"
  /\ after = Ok (0.5 + 0.3)%float.
Proof.
  split; [reflexivity|].
  apply (prefer_yes_checks_exclusive "Strongly disagree" [] prefer_yes_analysis 0.5%float);
    reflexivity.
Defined.

(** C2, as the claim states it, fails: "Strongly disagree" contains the
    positive marker "agree" and the negative marker "disagree"; the
    strategy block takes 0.5 to 0.5 + 0.3, not to 0.5 + 0.3 - 0.2, and
    the whole score is 0.8 where both adjustments would give less. *)
Lemma prefer_yes_not_additive :
  has_marker positive_markers "Strongly disagree" = true
  /\ has_marker negative_markers "Strongly disagree" = true
  /\ strategy_scoring "Strongly disagree" [] prefer_yes_analysis 0.5%float
     = Ok (0.5 + 0.3)%float
  /\ strategy_scoring "Strongly disagree" [] prefer_yes_analysis 0.5%float
     <> Ok (0.5 + 0.3 - 0.2)%float
  /\ _score_option fallback_analyzer "Strongly disagree" "Do you agree?" prefer_yes_analysis
     = Ok 0.8%float.
Proof.
  repeat split; try (vm_compute; reflexivity).
  intros H.
  assert (E : match strategy_scoring "Strongly disagree" [] prefer_yes_analysis 0.5%float with
              | Ok x => PrimFloat.ltb 0.7%float x
              | Raise _ => false
              end = PrimFloat.ltb 0.7%float (0.5 + 0.3 - 0.2)%float)
    by now rewrite H.
  vm_compute in E. discriminate E.
Qed.

(** ** The answer ranker *)

(** C3, as the code has it.  With no options the list of scores is empty
    and [max] raises [ValueError]: the ranker returns no pair. *)
Theorem predict_best_answer_empty_options
    (self : QuestionAnalyzer.t) (question_text : string) :
  predict_best_answer self question_text [] = Raise "ValueError".
Proof. reflexivity. Qed.

(** C3, as the claim states it, fails: the exception of the ranker on an
    empty list of options is not [InvalidInputError]. *)
Lemma empty_options_not_invalid_input :
  predict_best_answer fallback_analyzer "Any question?" [] = Raise "ValueError"
  /\ predict_best_answer fallback_analyzer "Any question?" [] <> Raise "InvalidInputError".
Proof. split; [reflexivity | discriminate]. Qed.

(** C1. For a non-empty list of options the ranker returns a position of
    the list and the score of the option there; every option's score is
    at most that confidence, and the scores of the options before that
    position are strictly below it (first position of the maximum). *)
Theorem predict_best_answer_argmax
    (self : QuestionAnalyzer.t) (question_text : string) (options : list string) :
  options <> [] ->
  let analysis := analyze_question self question_text in
  exists best_index confidence,
    predict_best_answer self question_text options = Ok (best_index, confidence)
    /\ best_index < List.length options
    /\ (exists option_text,
           nth_error options best_index = Some option_text
           /\ _score_option self option_text question_text analysis = Ok confidence)
    /\ (forall j option_text,
           nth_error options j = Some option_text ->
           exists score,
             _score_option self option_text question_text analysis = Ok score
             /\ PrimFloat.leb score confidence = true
             /\ (j < best_index -> PrimFloat.ltb score confidence = true)).
Proof.
  intros Hne analysis.
  pose (f := fun option_text => _score_option self option_text question_text analysis).
  pose (g := fun option_text =>
               match f option_text with Ok score => score | Raise _ => 0.0%float end).
  assert (Hfg : forall o, f o = Ok (g o) /\ unit_interval (g o)).
  { intros o. unfold g.
    destruct (score_option_total self o question_text analysis) as (score & Hs & Hu).
    unfold f. rewrite Hs. now split. }
  assert (Hmap : mapM f options = Ok (map g options))
    by (apply PyFacts.mapM_total; intros o; apply Hfg).
  assert (Hne' : map g options <> [])
    by (destruct options; [congruence | discriminate]).
  assert (Hall : Forall ordered (map g options)).
  { apply Forall_forall. intros s Hs. apply in_map_iff in Hs.
    destruct Hs as (o & <- & _). apply FloatOrder.unit_interval_ordered, Hfg. }
  destruct (PyFacts.argmax_first (map g options) Hne' Hall)
    as (i & c & Hrun & Hc & Hge & Hlt).
  exists i, c. split; [|split; [|split]].
  - unfold predict_best_answer. fold analysis. fold f. rewrite Hmap. exact Hrun.
  - rewrite <- (length_map g). apply nth_error_Some. congruence.
  - rewrite nth_error_map in Hc.
    destruct (nth_error options i) as [o|]; [|discriminate].
    injection Hc as <-. exists o. split; [reflexivity | apply Hfg].
  - intros j o Ho. exists (g o). split; [apply Hfg|]. split.
    + apply Hge. apply in_map. now apply nth_error_In with j.
    + intros Hj. apply (Hlt j); [assumption|].
      rewrite nth_error_map, Ho. reflexivity.
Qed.

Lemma predict_best_answer_argmax_witness :
  ["Strongly agree"; "Strongly disagree"; "No opinion"] <> []
  /\ exists best_index confidence,
       predict_best_answer fallback_analyzer "Do you agree with this policy?"
         ["Strongly agree"; "Strongly disagree"; "No opinion"]
       = Ok (best_index, confidence)
       /\ best_index < 3.
Proof.
  split; [discriminate|].
  destruct (predict_best_answer_argmax fallback_analyzer "Do you agree with this policy?"
              ["Strongly agree"; "Strongly disagree"; "No opinion"])
    as (i & c & Hrun & Hi & _); [discriminate|].
  exists i, c. split; assumption.
Defined.

(** C9. The scenario "Do you agree with this policy?" with the options
    "Strongly agree", "Strongly disagree", "No opinion", for an analyzer
    whose sentiment runs on the rule-based fallback (the pipeline is
    disabled, or raises on every text) and whose tokenizer starts the
    question with the tokens Do, you, agree: the type is [yes_no], the
    strategy is [prefer_yes], the ranker returns position 0, and its
    confidence is strictly above the score of "No opinion". *)
Theorem agree_policy_scenario (self : QuestionAnalyzer.t) :
  let question := "Do you agree with this policy?" in
  let options := ["Strongly agree"; "Strongly disagree"; "No opinion"] in
  (use_transformers self = false
   \/ forall text, exists exc, sentiment_analyzer self text = Raise exc) ->
  map text (firstn 3 (tokens (nlp self question))) = ["Do"; "you"; "agree"] ->
  let analysis := analyze_question self question in
  question_type analysis = "yes_no"
  /\ answer_strategy analysis = "prefer_yes"
  /\ exists confidence neutral_score,
       predict_best_answer self question options = Ok (0, confidence)
       /\ _score_option self "No opinion" question analysis = Ok neutral_score
       /\ PrimFloat.ltb neutral_score confidence = true.
Proof.
  intros question options Hfall Htok analysis.
  assert (Hrule : forall text, _analyze_sentiment self text = rule_based_sentiment text).
  { intros text. apply analyze_sentiment_rule.
    destruct Hfall as [H|H]; [now left | right; apply H]. }
  assert (Hfirst : first_words (nlp self question) = ["do"; "you"; "agree"]).
  { unfold first_words. rewrite <- (map_map text Py.lower), Htok. reflexivity. }
  assert (Hty : question_type analysis = "yes_no").
  { unfold analysis, analyze_question, _determine_question_type. cbn [question_type].
    rewrite Hfirst. reflexivity. }
  assert (Hstrat : answer_strategy analysis = "prefer_yes").
  { unfold analysis, analyze_question in *. cbn [answer_strategy question_type] in *.
    rewrite Hty. reflexivity. }
  assert (Hsent : sentiment analysis = "neutral").
  { unfold analysis, analyze_question. cbn [sentiment].
    rewrite Hrule. vm_compute. reflexivity. }
  assert (Hscore : forall o,
             _score_option self o question analysis
             = Ok (clamp (length_preference o
                            (let s := if has_marker positive_markers o then (0.5 + 0.3)%float
                                      else if has_marker negative_markers o then (0.5 - 0.2)%float
                                      else 0.5%float in
                             if String.eqb (rule_based_sentiment o) "neutral"
                             then (s + 0.1)%float
                             else s)))).
  { intros o. unfold _score_option, strategy_scoring, sentiment_matching.
    rewrite Hstrat, Hsent, Hrule. cbn [String.eqb Ascii.eqb Bool.eqb].
    destruct (has_marker positive_markers o); [|destruct (has_marker negative_markers o)];
      cbn [bind]; destruct (String.eqb (rule_based_sentiment o) "neutral");
      cbn [andb orb]; rewrite ?andb_false_r; reflexivity. }
  split; [exact Hty|]. split; [exact Hstrat|].
  exists 0.9%float, 0.4%float. split; [|split].
  - unfold predict_best_answer, options. fold question. fold analysis. cbn [mapM].
    rewrite !Hscore. vm_compute. reflexivity.
  - rewrite Hscore. vm_compute. reflexivity.
  - vm_compute. reflexivity.
Qed.

Lemma agree_policy_scenario_witness :
  use_transformers fallback_analyzer = false
  /\ map text (firstn 3 (tokens (nlp fallback_analyzer "Do you agree with this policy?")))
     = ["Do"; "you"; "agree"]
  /\ exists confidence,
       predict_best_answer fallback_analyzer "Do you agree with this policy?"
         ["Strongly agree"; "Strongly disagree"; "No opinion"]
       = Ok (0, confidence).
Proof.
  split; [reflexivity|]. split; [reflexivity|].
  destruct (agree_policy_scenario fallback_analyzer) as (_ & _ & c & s & Hrun & _);
    [left; reflexivity | reflexivity |].
  exists c. exact Hrun.
Defined.

(** ** The question classifier *)

Lemma list_in_iff (x : string) (l : list string) : Py.list_in x l = true <-> In x l.
Proof.
  unfold Py.list_in. rewrite existsb_exists. split.
  - intros (y & Hy & E). apply String.eqb_eq in E. now subst.
  - intros H. exists x. split; [assumption | apply String.eqb_refl].
Qed.

Lemma list_in_false (x : string) (l : list string) : ~ In x l -> Py.list_in x l = false.
Proof.
  intros H. destruct (Py.list_in x l) eqn:E; [|reflexivity].
  apply list_in_iff in E. contradiction.
Qed.

(** The loop returns at the first entry of the word list that is among
    the first words. *)
Lemma scan_first_entry (words first pre post : list string) (word : string) :
  words = pre ++ word :: post ->
  In word first ->
  (forall w, In w pre -> ~ In w first) ->
  scan_question_words words first = Some (type_of_word word).
Proof.
  revert words. induction pre as [|p pre IH]; intros words -> Hin Hpre; simpl.
  - apply list_in_iff in Hin. now rewrite Hin.
  - rewrite list_in_false by (apply Hpre; now left).
    apply IH; [reflexivity | assumption |]. intros w Hw. apply Hpre. now right.
Qed.

(** The loop ends without returning when no entry is among the first words. *)
Lemma scan_no_entry (words first : list string) :
  (forall w, In w words -> ~ In w first) ->
  scan_question_words words first = None.
Proof.
  induction words as [|p words IH]; intros H; simpl; [reflexivity|].
  rewrite list_in_false by (apply H; now left).
  apply IH. intros w Hw. apply H. now right.
Qed.

(** The code's word list and [if]/[elif] chain are the table of the
    specification. *)
Lemma question_words_table :
  map fst spec_question_type_table = question_words
  /\ Forall (fun entry => type_of_word (fst entry) = snd entry) spec_question_type_table.
Proof. split; [reflexivity|]. repeat constructor. Qed.

(** C4. The classifier is a total function of the document.  With the
    first three tokens lower-cased: the first entry of the table, in the
    order of the word list, whose word is among them gives the type; when
    no word of the table is among them, the type is [general_question] if
    the stripped text ends with a question mark and [statement] if not. *)
Theorem determine_question_type_table (doc : Doc) :
  let first := map (fun token => Py.lower (text token)) (firstn 3 (tokens doc)) in
  (forall pre word ty post,
      spec_question_type_table = pre ++ (word, ty) :: post ->
      In word first ->
      (forall w t, In (w, t) pre -> ~ In w first) ->
      _determine_question_type doc = ty)
  /\ ((forall w t, In (w, t) spec_question_type_table -> ~ In w first) ->
      _determine_question_type doc
      = if Py.endswith (Py.strip (doc_text doc)) "?" then "general_question"
        else "statement").
Proof.
  intros first. destruct question_words_table as [Hwords Htypes]. split.
  - intros pre word ty post Htab Hin Hpre.
    unfold _determine_question_type. fold (first_words doc). change (first_words doc) with first.
    rewrite (scan_first_entry question_words first (map fst pre) (map fst post) word).
    + rewrite Forall_forall in Htypes. apply (Htypes (word, ty)).
      rewrite Htab. apply in_or_app. right. now left.
    + rewrite <- Hwords, Htab, map_app. reflexivity.
    + assumption.
    + intros w Hw. apply in_map_iff in Hw. destruct Hw as ([w' t] & <- & Hw).
      now apply (Hpre w' t).
  - intros Hnone. unfold _determine_question_type. change (first_words doc) with first.
    rewrite scan_no_entry; [reflexivity|].
    intros w Hw. rewrite <- Hwords in Hw. apply in_map_iff in Hw.
    destruct Hw as ([w' t] & <- & Hw). now apply (Hnone w' t).
Qed.

(** When two question words occur among the first three tokens, the
    order of the word list decides, not the order in the text. *)
Example table_order_not_text_order :
  _determine_question_type (whitespace_nlp "Is what you said true?") = "factual"
  /\ _determine_question_type (whitespace_nlp "What is your name?") = "factual"
  /\ _determine_question_type (whitespace_nlp "Do you agree?") = "yes_no"
  /\ _determine_question_type (whitespace_nlp "Please tell me more ?  ") = "general_question"
  /\ _determine_question_type (whitespace_nlp "Enter your name") = "statement".
Proof. repeat split. Qed.

(** ** The sentiment estimator *)

(** C5. When the transformers pipeline is disabled, or raises on the
    text, the sentiment is given by the counts of the positive and of the
    negative words that occur in the lower-cased text: [positive] when
    the positive count is greater, [negative] when the negative count is
    greater, [neutral] when they are equal; with the three sample texts
    of the specification. *)
Theorem analyze_sentiment_fallback (self : QuestionAnalyzer.t) :
  (forall text,
      use_transformers self = false
      \/ (exists exc, sentiment_analyzer self text = Raise exc) ->
      let occurs := fun word => Py.str_in word (Py.lower text) in
      let positive_count :=
        List.length (filter occurs
          ["good"; "great"; "excellent"; "best"; "positive"; "like"; "love"; "prefer"]) in
      let negative_count :=
        List.length (filter occurs
          ["bad"; "poor"; "worst"; "negative"; "dislike"; "hate"; "avoid"; "terrible"]) in
      (negative_count < positive_count -> _analyze_sentiment self text = "positive")
      /\ (positive_count < negative_count -> _analyze_sentiment self text = "negative")
      /\ (positive_count = negative_count -> _analyze_sentiment self text = "neutral"))
  /\ (use_transformers self = false ->
      _analyze_sentiment self "This is a great and excellent result" = "positive"
      /\ _analyze_sentiment self "This is terrible and bad" = "negative"
      /\ _analyze_sentiment self "The sky is present" = "neutral").
Proof.
  split.
  - intros text Hfall occurs positive_count negative_count.
    rewrite (analyze_sentiment_rule self text Hfall).
    unfold rule_based_sentiment, Py.count.
    fold occurs. change positive_words with
      ["good"; "great"; "excellent"; "best"; "positive"; "like"; "love"; "prefer"].
    change negative_words with
      ["bad"; "poor"; "worst"; "negative"; "dislike"; "hate"; "avoid"; "terrible"].
    fold positive_count. fold negative_count.
    destruct (Nat.ltb_spec negative_count positive_count);
      destruct (Nat.ltb_spec positive_count negative_count);
      repeat split; intros; try reflexivity; lia.
  - intros Hut. unfold _analyze_sentiment. rewrite Hut. repeat split.
Qed.

(** The same three texts when the pipeline is enabled and raises. *)
Example sentiment_samples_when_pipeline_raises :
  _analyze_sentiment failing_analyzer "This is a great and excellent result" = "positive"
  /\ _analyze_sentiment failing_analyzer "This is terrible and bad" = "negative"
  /\ _analyze_sentiment failing_analyzer "The sky is present" = "neutral".
Proof. repeat split. Qed.

(** ** The strategy selector and the expected answer type *)

Ltac string_cases :=
  repeat match goal with
         | |- context [String.eqb ?a ?b] => destruct (String.eqb_spec a b); subst
         end.

(** C7. The strategy depends on the question type alone, and follows the
    table: [yes_no] gives [prefer_yes], [selection] gives [keyword_match],
    [factual], [temporal], [spatial] and [person] give [specific_info],
    [reason] gives [explanation], every other string gives [balanced]. *)
Theorem determine_answer_strategy_table
    (question_type sentiment : string) (keywords : list string) :
  _determine_answer_strategy question_type sentiment keywords
  = _determine_answer_strategy question_type "" []
  /\ (question_type = "yes_no" ->
      _determine_answer_strategy question_type sentiment keywords = "prefer_yes")
  /\ (question_type = "selection" ->
      _determine_answer_strategy question_type sentiment keywords = "keyword_match")
  /\ (In question_type ["factual"; "temporal"; "spatial"; "person"] ->
      _determine_answer_strategy question_type sentiment keywords = "specific_info")
  /\ (question_type = "reason" ->
      _determine_answer_strategy question_type sentiment keywords = "explanation")
  /\ (~ In question_type
          ["yes_no"; "selection"; "factual"; "temporal"; "spatial"; "person"; "reason"] ->
      _determine_answer_strategy question_type sentiment keywords = "balanced").
Proof.
  split; [reflexivity|].
  split; [now intros ->|]. split; [now intros ->|].
  split; [intros [<-|[<-|[<-|[<-|[]]]]]; reflexivity|].
  split; [now intros ->|].
  intros Hnot. unfold _determine_answer_strategy, Py.list_in. cbn [existsb].
  string_cases; try reflexivity; exfalso; apply Hnot; simpl; tauto.
Qed.

(** C10. The expected answer type depends on the question type alone:
    [yes_no] gives [boolean], [selection] gives [option], [temporal]
    gives [date_time], [spatial] gives [location], [person] gives
    [entity], and every other string gives [text] (so do [factual],
    [reason], [process], [general_question] and [statement]); the field
    [expected_answer_type] of an analysis is that function of its field
    [question_type]. *)
Theorem expected_answer_type_table
    (self : QuestionAnalyzer.t) (question_text : string) (doc : Doc) (qtype : string) :
  let expected := _determine_expected_answer_type doc qtype in
  expected = _determine_expected_answer_type (mkDoc "" []) qtype
  /\ (qtype = "yes_no" -> expected = "boolean")
  /\ (qtype = "selection" -> expected = "option")
  /\ (qtype = "temporal" -> expected = "date_time")
  /\ (qtype = "spatial" -> expected = "location")
  /\ (qtype = "person" -> expected = "entity")
  /\ (~ In qtype ["yes_no"; "selection"; "temporal"; "spatial"; "person"] ->
      expected = "text")
  /\ (In qtype ["factual"; "reason"; "process"; "general_question"; "statement"] ->
      expected = "text")
  /\ expected_answer_type (analyze_question self question_text)
     = _determine_expected_answer_type doc
         (question_type (analyze_question self question_text)).
Proof.
  intros expected. unfold expected.
  split; [reflexivity|].
  do 5 (split; [now intros ->|]).
  split; [|split].
  - intros Hnot. unfold _determine_expected_answer_type.
    string_cases; try reflexivity; exfalso; apply Hnot; simpl; tauto.
  - intros [<-|[<-|[<-|[<-|[<-|[]]]]]]; reflexivity.
  - reflexivity.
Qed.

(** ** The keyword extractor *)

Section Keywords.

(** What [unique_from] keeps: the items that are not in [seen]. *)
Lemma unique_from_In (seen keywords : list string) (kw : string) :
  In kw (unique_from seen keywords) <-> In kw keywords /\ ~ In kw seen.
Proof.
  revert seen. induction keywords as [|k rest IH]; intros seen; simpl.
  - tauto.
  - destruct (Py.list_in k seen) eqn:E.
    + apply list_in_iff in E. rewrite IH. split.
      * intros [H1 H2]. auto.
      * intros [[->|H1] H2]; [contradiction | auto].
    + assert (Hk : ~ In k seen)
        by (intros H; apply list_in_iff in H; congruence).
      simpl. rewrite IH. simpl. split.
      * intros [->|[H1 H2]]; [auto|]. split; [auto|]. intros H. apply H2. now right.
      * intros [[->|H1] H2]; [now left|].
        destruct (String.eqb_spec k kw) as [->|Hne]; [now left|].
        right. split; [assumption|]. intros [H|H]; [congruence | contradiction].
Qed.

Lemma unique_from_NoDup (seen keywords : list string) :
  NoDup (unique_from seen keywords).
Proof.
  revert seen. induction keywords as [|k rest IH]; intros seen; simpl.
  - constructor.
  - destruct (Py.list_in k seen); [apply IH|].
    constructor; [|apply IH].
    rewrite unique_from_In. intros [_ H]. apply H. now left.
Qed.

(** Later items never change what was kept of the earlier ones. *)
Lemma unique_from_app (seen l1 l2 : list string) :
  exists seen', unique_from seen (l1 ++ l2) = unique_from seen l1 ++ unique_from seen' l2.
Proof.
  revert seen. induction l1 as [|k rest IH]; intros seen; simpl.
  - now exists seen.
  - destruct (Py.list_in k seen).
    + apply IH.
    + destruct (IH (k :: seen)) as [seen' H]. exists seen'. simpl. now rewrite H.
Qed.

(** A list without repetition, none of it seen, is kept as it is. *)
Lemma unique_from_fixed (seen keywords : list string) :
  NoDup keywords -> (forall kw, In kw keywords -> ~ In kw seen) ->
  unique_from seen keywords = keywords.
Proof.
  revert seen. induction keywords as [|k rest IH]; intros seen Hnd Hseen; simpl.
  - reflexivity.
  - inversion Hnd as [|? ? Hk Hrest]; subst.
    rewrite list_in_false by (apply Hseen; now left).
    f_equal. apply IH; [assumption|].
    intros kw Hkw [<-|H]; [contradiction|].
    apply (Hseen kw); [now right | assumption].
Qed.

(** The two part-of-speech filters of the module select the same tokens. *)
Lemma content_filter_same (token : Token) :
  (if Py.list_in (pos_ token) ["NOUN"; "PROPN"] && negb (is_stop token) then true
   else Py.list_in (pos_ token) ["VERB"; "ADJ"] && negb (is_stop token))
  = Py.list_in (pos_ token) ["NOUN"; "VERB"; "ADJ"; "PROPN"] && negb (is_stop token).
Proof.
  unfold Py.list_in. cbn [existsb].
  destruct (String.eqb (pos_ token) "NOUN"), (String.eqb (pos_ token) "PROPN"),
    (String.eqb (pos_ token) "VERB"), (String.eqb (pos_ token) "ADJ"),
    (is_stop token); reflexivity.
Qed.

Lemma extract_keywords_unique (doc : Doc) :
  _extract_keywords doc = unique_from [] (option_keywords_of doc).
Proof.
  unfold _extract_keywords, option_keywords_of. do 2 f_equal.
  apply filter_ext. intros token. apply content_filter_same.
Qed.

End Keywords.

(** X1. The keywords of a document hold no word twice, and they are
    exactly the lemmas of its tokens that are not stop words and are
    tagged NOUN, PROPN, VERB or ADJ. *)
Theorem extract_keywords_content_lemmas (doc : Doc) :
  NoDup (_extract_keywords doc)
  /\ forall kw,
       In kw (_extract_keywords doc)
       <-> exists token,
             In token (tokens doc) /\ lemma_ token = kw
             /\ is_stop token = false
             /\ In (pos_ token) ["NOUN"; "PROPN"; "VERB"; "ADJ"].
Proof.
  rewrite extract_keywords_unique. split; [apply unique_from_NoDup|].
  intros kw. rewrite unique_from_In. unfold option_keywords_of.
  rewrite in_map_iff. split.
  - intros [(token & Hl & Hin) _]. apply filter_In in Hin. destruct Hin as [Hin Hp].
    apply andb_true_iff in Hp. destruct Hp as [Hpos Hstop].
    exists token. repeat split; auto.
    + now destruct (is_stop token).
    + apply list_in_iff in Hpos. simpl in *. tauto.
  - intros (token & Hin & Hl & Hstop & Hpos). split; [|intros []].
    exists token. split; [assumption|]. apply filter_In. split; [assumption|].
    rewrite Hstop. rewrite andb_true_r. apply list_in_iff. simpl in *. tauto.
Qed.

(** X2. Keywords come in the order of first occurrence: the keywords of
    the first tokens of a document are the first keywords of the whole
    document, and a document whose content lemmas are pairwise distinct
    yields them unchanged. *)
Theorem extract_keywords_first_occurrence
    (text1 text2 : string) (tokens1 tokens2 : list Token) :
  (exists later,
      _extract_keywords (mkDoc text2 (tokens1 ++ tokens2))
      = _extract_keywords (mkDoc text1 tokens1) ++ later)
  /\ (NoDup (option_keywords_of (mkDoc text1 tokens1)) ->
      _extract_keywords (mkDoc text1 tokens1) = option_keywords_of (mkDoc text1 tokens1)).
Proof.
  split.
  - rewrite !extract_keywords_unique. unfold option_keywords_of. cbn [tokens].
    rewrite filter_app, map_app.
    destruct (unique_from_app []
                (map lemma_ (filter (fun token =>
                   Py.list_in (pos_ token) ["NOUN"; "VERB"; "ADJ"; "PROPN"]
                   && negb (is_stop token)) tokens1))
                (map lemma_ (filter (fun token =>
                   Py.list_in (pos_ token) ["NOUN"; "VERB"; "ADJ"; "PROPN"]
                   && negb (is_stop token)) tokens2))) as [seen' H].
    rewrite H. eauto.
  - intros Hnd. rewrite extract_keywords_unique.
    apply unique_from_fixed; [assumption | auto].
Qed.

(** X3. An option with the text of the question itself matches every
    keyword of the analysis: the count of matches of [_score_option] is
    the number of keywords. *)
Theorem question_matches_all_its_keywords
    (self : QuestionAnalyzer.t) (question_text : string) :
  let analysis := analyze_question self question_text in
  keyword_matches analysis (option_keywords_of (nlp self question_text))
  = List.length (keywords analysis).
Proof.
  intros analysis. unfold keyword_matches, Py.count. f_equal.
  apply forallb_filter_id. apply forallb_forall. intros kw Hkw.
  unfold analysis, analyze_question in Hkw. cbn [keywords] in Hkw.
  rewrite extract_keywords_unique in Hkw. apply unique_from_In in Hkw.
  apply list_in_iff. tauto.
Qed.

(** ** How the steps of the analysis fit together *)

Lemma scan_question_words_range (first : list string) :
  match scan_question_words question_words first with
  | Some ty => In ty ["factual"; "temporal"; "spatial"; "person"; "reason"; "process";
                      "selection"; "yes_no"]
  | None => True
  end.
Proof.
  unfold question_words. cbn [scan_question_words].
  repeat match goal with
         | |- context [Py.list_in ?w first] =>
             destruct (Py.list_in w first);
             [repeat (first [left; reflexivity | right])|]
         end.
  exact I.
Qed.

(** X4. Every analysis carries one of ten combinations of question type,
    answer strategy and expected answer type; the strategies
    [prefer_yes] and [keyword_match] come with the types [yes_no] and
    [selection] only. *)
Theorem analyze_question_combinations
    (self : QuestionAnalyzer.t) (question_text : string) :
  let analysis := analyze_question self question_text in
  In (question_type analysis, answer_strategy analysis, expected_answer_type analysis)
     [("factual", "specific_info", "text");
      ("temporal", "specific_info", "date_time");
      ("spatial", "specific_info", "location");
      ("person", "specific_info", "entity");
      ("reason", "explanation", "text");
      ("process", "balanced", "text");
      ("selection", "keyword_match", "option");
      ("yes_no", "prefer_yes", "boolean");
      ("general_question", "balanced", "text");
      ("statement", "balanced", "text")].
Proof.
  intros analysis. unfold analysis, analyze_question.
  cbn [question_type answer_strategy expected_answer_type].
  generalize (_analyze_sentiment self question_text) (_extract_keywords (nlp self question_text)).
  intros sent kws.
  assert (Hty : In (_determine_question_type (nlp self question_text))
                   ["factual"; "temporal"; "spatial"; "person"; "reason"; "process";
                    "selection"; "yes_no"; "general_question"; "statement"]).
  { unfold _determine_question_type.
    pose proof (scan_question_words_range (first_words (nlp self question_text))) as H.
    destruct (scan_question_words question_words (first_words (nlp self question_text))).
    - repeat (destruct H as [<-|H]; [repeat (first [left; reflexivity | right])|]).
      contradiction.
    - destruct (Py.endswith _ _); repeat (first [left; reflexivity | right]). }
  revert Hty. generalize (_determine_question_type (nlp self question_text)). intros ty Hty.
  repeat (destruct Hty as [<-|Hty];
          [repeat (first [left; reflexivity | right])|]).
  contradiction.
Qed.

(** ** Words that contain other words *)

Section Substrings.

Lemma append_assoc (a b c : string) :
  String.append (String.append a b) c = String.append a (String.append b c).
Proof. induction a as [|x a IH]; simpl; [reflexivity | now rewrite IH]. Qed.

(** A text that contains a word contains every part of the word. *)
Lemma str_in_trans (a b c : string) :
  Py.str_in a b = true -> Py.str_in b c = true -> Py.str_in a c = true.
Proof.
  rewrite !PyFacts.str_in_iff. intros (x & y & ->) (u & v & ->).
  exists (String.append u x), (String.append y v).
  now rewrite !append_assoc.
Qed.

Lemma has_marker_of_word (markers : list string) (word option_text : string) :
  In word markers -> Py.str_in word (Py.lower option_text) = true ->
  has_marker markers option_text = true.
Proof.
  intros Hin Hw. unfold has_marker, Py.any. apply existsb_exists. eauto.
Qed.

(** A count is positive as soon as one listed word occurs. *)
Lemma count_pos {A : Type} (p : A -> bool) (l : list A) (x : A) :
  In x l -> p x = true -> 0 < Py.count p l.
Proof.
  intros Hin Hp. unfold Py.count.
  assert (H : In x (filter p l)) by (apply filter_In; auto).
  destruct (filter p l); [contradiction | simpl; lia].
Qed.

End Substrings.

(** X5. Under [prefer_yes] an option that contains "disagree" or
    "definitely not" gets the bonus +0.3 of the positive markers, since
    "agree" and "definitely" occur in it; the penalty -0.2 is applied
    exactly to the options without a positive marker in which "no"
    occurs. *)
Theorem prefer_yes_penalty_needs_no
    (option_text : string) (option_keywords : list string)
    (analysis : Analysis) (score : float) :
  answer_strategy analysis = "prefer_yes" ->
  let lowered := Py.lower option_text in
  let after := strategy_scoring option_text option_keywords analysis score in
  (Py.str_in "disagree" lowered = true \/ Py.str_in "definitely not" lowered = true ->
   after = Ok (score + 0.3)%float)
  /\ (has_marker positive_markers option_text = false ->
      after = if Py.str_in "no" lowered then Ok (score - 0.2)%float else Ok score).
Proof.
  intros Hs lowered after. unfold after, strategy_scoring. rewrite Hs.
  cbn [String.eqb Ascii.eqb Bool.eqb]. split.
  - intros H.
    assert (Hpos : has_marker positive_markers option_text = true).
    { destruct H as [H|H].
      - apply has_marker_of_word with "agree"; [simpl; tauto|].
        apply str_in_trans with "disagree"; [reflexivity | exact H].
      - apply has_marker_of_word with "definitely"; [simpl; tauto|].
        apply str_in_trans with "definitely not"; [reflexivity | exact H]. }
    now rewrite Hpos.
  - intros Hpos. rewrite Hpos. fold lowered.
    assert (Hneg : has_marker negative_markers option_text = Py.str_in "no" lowered).
    { destruct (Py.str_in "no" lowered) eqn:Hno.
      - apply has_marker_of_word with "no"; [simpl; tauto | exact Hno].
      - unfold has_marker, Py.any, negative_markers. cbn [existsb]. fold lowered.
        rewrite Hno.
        assert (Hagree : Py.str_in "agree" lowered = false).
        { destruct (Py.str_in "agree" lowered) eqn:E; [|reflexivity].
          rewrite (has_marker_of_word positive_markers "agree" option_text) in Hpos;
            [discriminate | simpl; tauto | exact E]. }
        assert (Hdis : Py.str_in "disagree" lowered = false).
        { destruct (Py.str_in "disagree" lowered) eqn:E; [|reflexivity].
          rewrite (str_in_trans "agree" "disagree" lowered) in Hagree;
            [discriminate | reflexivity | exact E]. }
        assert (Hsd : Py.str_in "strongly disagree" lowered = false).
        { destruct (Py.str_in "strongly disagree" lowered) eqn:E; [|reflexivity].
          rewrite (str_in_trans "agree" "strongly disagree" lowered) in Hagree;
            [discriminate | reflexivity | exact E]. }
        assert (Hdn : Py.str_in "definitely not" lowered = false).
        { destruct (Py.str_in "definitely not" lowered) eqn:E; [|reflexivity].
          rewrite (str_in_trans "no" "definitely not" lowered) in Hno;
            [discriminate | reflexivity | exact E]. }
        now rewrite Hdis, Hsd, Hdn. }
    rewrite Hneg. reflexivity.
Qed.

Lemma prefer_yes_penalty_needs_no_witness :
  answer_strategy prefer_yes_analysis = "prefer_yes"
  /\ strategy_scoring "It is definitely not so" [] prefer_yes_analysis 0.5%float
     = Ok (0.5 + 0.3)%float.
Proof.
  split; [reflexivity|].
  apply (prefer_yes_penalty_needs_no "It is definitely not so" [] prefer_yes_analysis 0.5%float);
    [reflexivity | right; reflexivity].
Defined.

(** X6. The rule-based sentiment is [negative] only when one of bad,
    poor, worst, negative, hate, avoid, terrible occurs in the text:
    "dislike" alone never gives [negative], because "like" occurs in it
    and is counted as positive. *)
Theorem negative_sentiment_needs_other_word (text : string) :
  rule_based_sentiment text = "negative" ->
  exists word,
    In word ["bad"; "poor"; "worst"; "negative"; "hate"; "avoid"; "terrible"]
    /\ Py.str_in word (Py.lower text) = true.
Proof.
  unfold rule_based_sentiment. set (lowered := Py.lower text).
  set (occurs := fun word => Py.str_in word lowered).
  intros H.
  destruct (occurs "bad") eqn:E1; [exists "bad"; simpl; tauto|].
  destruct (occurs "poor") eqn:E2; [exists "poor"; simpl; tauto|].
  destruct (occurs "worst") eqn:E3; [exists "worst"; simpl; tauto|].
  destruct (occurs "negative") eqn:E4; [exists "negative"; simpl; tauto|].
  destruct (occurs "hate") eqn:E5; [exists "hate"; simpl; tauto|].
  destruct (occurs "avoid") eqn:E6; [exists "avoid"; simpl; tauto|].
  destruct (occurs "terrible") eqn:E7; [exists "terrible"; simpl; tauto|].
  exfalso. revert H.
  assert (Hneg : Py.count occurs negative_words = if occurs "dislike" then 1 else 0).
  { unfold Py.count, negative_words. cbn [filter].
    rewrite E1, E2, E3, E4, E5, E6, E7. now destruct (occurs "dislike"). }
  rewrite Hneg.
  destruct (occurs "dislike") eqn:Ed.
  - assert (Hlike : occurs "like" = true)
      by (apply str_in_trans with "dislike"; [reflexivity | exact Ed]).
    pose proof (count_pos occurs positive_words "like") as Hpos.
    assert (0 < Py.count occurs positive_words) by (apply Hpos; [simpl; tauto | exact Hlike]).
    destruct (Nat.ltb_spec 1 (Py.count occurs positive_words)); [discriminate|].
    destruct (Nat.ltb_spec (Py.count occurs positive_words) 1); [lia | discriminate].
  - destruct (Nat.ltb 0 (Py.count occurs positive_words)); [discriminate|].
    rewrite Nat.ltb_irrefl || simpl; discriminate.
Qed.

Lemma negative_sentiment_needs_other_word_witness :
  rule_based_sentiment "I hate and dislike it" = "negative"
  /\ exists word,
       In word ["bad"; "poor"; "worst"; "negative"; "hate"; "avoid"; "terrible"]
       /\ Py.str_in word (Py.lower "I hate and dislike it") = true.
Proof.
  split; [reflexivity|].
  apply (negative_sentiment_needs_other_word "I hate and dislike it"). reflexivity.
Defined.

(** A text with "dislike" as its only listed word is [neutral]. *)
Example dislike_alone_is_neutral :
  rule_based_sentiment "I dislike this policy" = "neutral"
  /\ rule_based_sentiment "I hate this policy" = "negative".
Proof. split; reflexivity. Qed.

(** ** More on the scorer and the ranker *)

Section Ranking.

Import FloatOrder.

Variable self : QuestionAnalyzer.t.

Lemma SFltb_not_leb (a b : spec_float) : SFltb a b = true -> SFleb b a = false.
Proof. intros Hab. sf_cases; sf_compare. Qed.

Lemma ltb_not_leb (x y : float) :
  PrimFloat.ltb x y = true -> PrimFloat.leb y x = false.
Proof. to_spec. apply SFltb_not_leb. Qed.

(** The ranker is the arg-max of a list of scores, one per option, each
    in the unit interval. *)
Lemma predict_best_answer_scores (question_text : string) (options : list string) :
  exists value : string -> float,
    (forall option_text,
        _score_option self option_text question_text (analyze_question self question_text)
        = Ok (value option_text)
        /\ unit_interval (value option_text))
    /\ predict_best_answer self question_text options
       = (highest <- Py.max (map value options) ;;
          best <- Py.index (map value options) highest ;;
          conf <- Py.getitem (map value options) best ;;
          Ok (best, conf)).
Proof.
  pose (f := fun option_text =>
               _score_option self option_text question_text
                 (analyze_question self question_text)).
  exists (fun option_text =>
            match f option_text with Ok score => score | Raise _ => 0.0%float end).
  assert (Hf : forall o, f o = Ok (match f o with Ok score => score | Raise _ => 0.0%float end)
                        /\ unit_interval (match f o with Ok score => score | Raise _ => 0.0%float end)).
  { intros o.
    destruct (score_option_total self o question_text (analyze_question self question_text))
      as (score & Hs & Hu).
    unfold f. rewrite Hs. now split. }
  split; [exact Hf|].
  unfold predict_best_answer. fold f.
  rewrite (PyFacts.mapM_total f _ options (fun o => proj1 (Hf o))). reflexivity.
Qed.

End Ranking.

(** X7. Outside the strategy [keyword_match] the final clamp changes
    nothing: the score is the base 0.5 with the strategy, sentiment and
    length adjustments, and it lies between 0.5 - 0.2 - 0.1 and
    0.5 + 0.3 + 0.1 + 0.05. *)
Theorem score_unclamped_without_keyword_match
    (self : QuestionAnalyzer.t) (option_text question : string) (analysis : Analysis) :
  answer_strategy analysis <> "keyword_match" ->
  exists before,
    strategy_scoring option_text (option_keywords_of (nlp self option_text)) analysis 0.5%float
    = Ok before
    /\ _score_option self option_text question analysis
       = Ok (length_preference option_text
               (sentiment_matching self option_text analysis before))
    /\ PrimFloat.leb (0.5 - 0.2 - 0.1)%float
         (length_preference option_text
            (sentiment_matching self option_text analysis before)) = true
    /\ PrimFloat.leb
         (length_preference option_text
            (sentiment_matching self option_text analysis before))
         (0.5 + 0.3 + 0.1 + 0.05)%float = true.
Proof.
  intros Hs. apply String.eqb_neq in Hs.
  unfold _score_option, strategy_scoring, sentiment_matching, length_preference.
  rewrite Hs.
  repeat match goal with
         | |- context [if ?b then _ else _] => destruct b
         end;
    eexists; (split; [reflexivity|]); cbn [bind]; repeat split; vm_compute; reflexivity.
Qed.

Lemma score_unclamped_without_keyword_match_witness :
  answer_strategy prefer_yes_analysis <> "keyword_match"
  /\ _score_option fallback_analyzer "No opinion" "Do you agree?" prefer_yes_analysis
     = Ok (0.5 - 0.2)%float.
Proof.
  split; [discriminate|].
  destruct (score_unclamped_without_keyword_match fallback_analyzer "No opinion"
              "Do you agree?" prefer_yes_analysis) as (before & Hb & Hscore & _);
    [discriminate|].
  rewrite Hscore. vm_compute in Hb. injection Hb as <-. vm_compute. reflexivity.
Defined.

(** X8. The ranker returns position 0 exactly when no later option
    scores above the first one: the first option wins every tie. *)
Theorem first_option_wins_ties
    (self : QuestionAnalyzer.t) (question_text first : string) (others : list string) :
  let score := fun option_text =>
    _score_option self option_text question_text (analyze_question self question_text) in
  (exists confidence,
      predict_best_answer self question_text (first :: others) = Ok (0, confidence))
  <-> (forall other, In other others ->
         exists s0 s, score first = Ok s0 /\ score other = Ok s
                      /\ PrimFloat.leb s s0 = true).
Proof.
  intros score.
  destruct (predict_best_answer_scores self question_text (first :: others))
    as (value & Hvalue & Hrun).
  assert (Hall : Forall ordered (map value (first :: others))).
  { apply Forall_forall. intros s Hs. apply in_map_iff in Hs.
    destruct Hs as (o & <- & _). apply FloatOrder.unit_interval_ordered, Hvalue. }
  destruct (PyFacts.argmax_first (map value (first :: others))) as (i & c & Hi & Hc & Hge & Hlt);
    [discriminate | exact Hall |].
  rewrite Hrun, Hi. split.
  - intros [confidence Heq]. injection Heq as -> <-.
    simpl in Hc. injection Hc as <-.
    intros other Hin. exists (value first), (value other).
    split; [apply Hvalue|]. split; [apply Hvalue|].
    apply Hge. simpl. right. now apply in_map.
  - intros Hle. destruct i as [|i]; [eauto|]. exfalso.
    assert (Hfirst : PrimFloat.ltb (value first) c = true)
      by (apply (Hlt 0); [lia | reflexivity]).
    simpl in Hc. apply nth_error_In in Hc. apply in_map_iff in Hc.
    destruct Hc as (other & <- & Hin).
    destruct (Hle other Hin) as (s0 & s & H0 & H1 & Hs).
    unfold score in H0, H1.
    rewrite (proj1 (Hvalue first)) in H0. rewrite (proj1 (Hvalue other)) in H1.
    injection H0 as <-. injection H1 as <-.
    apply ltb_not_leb in Hfirst. congruence.
Qed.

(** ** The constructor *)

(** X9. The constructor fails only when spaCy's model can be loaded
    neither directly nor after a download.  When the model loads, the
    analyzer is built whatever the transformers pipelines do, and with
    [use_transformers] false or a pipeline that fails to load, its
    sentiment is the rule-based one on every text. *)
Theorem init_falls_back_to_rules (env : Construction.Loaders) (flag : bool) :
  (forall model,
      Construction.spacy_load env = Ok model
      \/ ((exists exc, Construction.spacy_load env = Raise exc)
          /\ Construction.spacy_download_load env = Ok model) ->
      exists self,
        Construction.__init__ env flag = Ok self
        /\ nlp self = model
        /\ (flag = false
            \/ (exists exc, Construction.load_sentiment env = Raise exc)
            \/ (exists exc, Construction.load_classifier env = Raise exc) ->
            forall text, _analyze_sentiment self text = rule_based_sentiment text))
  /\ (forall exc1 exc2,
         Construction.spacy_load env = Raise exc1 ->
         Construction.spacy_download_load env = Raise exc2 ->
         Construction.__init__ env flag = Raise exc2).
Proof.
  split.
  - intros model Hmodel. unfold Construction.__init__.
    assert (Hnlp : match Construction.spacy_load env with
                   | Ok m => Ok m
                   | Raise _ => Construction.spacy_download_load env
                   end = Ok model).
    { destruct Hmodel as [-> | [[exc ->] ->]]; reflexivity. }
    rewrite Hnlp. cbn [bind].
    destruct flag.
    + destruct (Construction.load_sentiment env) as [sa|e1] eqn:Es.
      * destruct (Construction.load_classifier env) as [u|e2] eqn:Ec.
        -- eexists. split; [reflexivity|]. split; [reflexivity|].
           intros [H|[[exc H]|[exc H]]]; discriminate.
        -- eexists. split; [reflexivity|]. split; [reflexivity|]. reflexivity.
      * eexists. split; [reflexivity|]. split; [reflexivity|]. reflexivity.
    + eexists. split; [reflexivity|]. split; [reflexivity|]. reflexivity.
  - intros exc1 exc2 H1 H2. unfold Construction.__init__. now rewrite H1, H2.
Qed.

(** On a machine without the transformers models the analyzer works on
    the rules. *)
Example init_offline :
  exists self,
    Construction.__init__ offline_loaders true = Ok self
    /\ use_transformers self = false
    /\ predict_best_answer self "Do you agree with this policy?"
         ["Strongly agree"; "Strongly disagree"; "No opinion"]
       = Ok (0, 0.9%float).
Proof. eexists. split; [reflexivity|]. split; [reflexivity|]. vm_compute. reflexivity. Qed.

(** ** File names and truncated texts *)

Section HelperFacts.

Lemma length_append (a b : string) :
  String.length (String.append a b) = String.length a + String.length b.
Proof. induction a as [|c a IH]; simpl; [reflexivity | now rewrite IH]. Qed.

Lemma length_substring_0 (m : nat) (s : string) :
  String.length (String.substring 0 m s) = Nat.min m (String.length s).
Proof.
  revert s. induction m as [|m IH]; intros s.
  - now destruct s.
  - destruct s as [|c s]; simpl; [reflexivity | now rewrite IH].
Qed.

(** A slice up to a position within the text is a prefix of that length. *)
Lemma substring_0_prefix (m : nat) (s : string) :
  m <= String.length s ->
  exists rest, s = String.append (String.substring 0 m s) rest.
Proof.
  revert s. induction m as [|m IH]; intros s Hm.
  - exists s. now destruct s.
  - destruct s as [|c s]; simpl in *; [lia|].
    destruct (IH s) as [rest Hrest]; [lia|]. exists rest. now rewrite <- Hrest.
Qed.

Lemma is_invalid_underscore : Helpers.is_invalid "_"%char = false.
Proof. reflexivity. Qed.

End HelperFacts.

(** X10. A sanitized file name has the length of the name and holds none
    of the characters backslash, slash, star, question mark, colon,
    double quote, less, greater and bar; sanitizing it again or
    sanitizing a name without these characters changes nothing. *)
Theorem sanitize_filename_clean (filename : string) :
  String.length (Helpers.sanitize_filename filename) = String.length filename
  /\ (forall c, In c (list_ascii_of_string (Helpers.sanitize_filename filename)) ->
                ~ In c ["092"; "/"; "*"; "?"; ":"; "034"; "<"; ">"; "|"]%char)
  /\ Helpers.sanitize_filename (Helpers.sanitize_filename filename)
     = Helpers.sanitize_filename filename
  /\ ((forall c, In c (list_ascii_of_string filename) ->
                 ~ In c ["092"; "/"; "*"; "?"; ":"; "034"; "<"; ">"; "|"]%char) ->
      Helpers.sanitize_filename filename = filename).
Proof.
  assert (Hinv : forall c, Helpers.is_invalid c = true
                           <-> In c ["092"; "/"; "*"; "?"; ":"; "034"; "<"; ">"; "|"]%char).
  { intros c. unfold Helpers.is_invalid. rewrite existsb_exists. split.
    - intros (d & Hd & E). apply Ascii.eqb_eq in E. now subst.
    - intros H. exists c. split; [exact H | apply Ascii.eqb_refl]. }
  repeat split.
  - induction filename as [|c rest IH]; simpl; [reflexivity | now rewrite IH].
  - induction filename as [|c rest IH];
      cbn [Helpers.sanitize_filename list_ascii_of_string]; [intros d []|].
    intros d [<-|Hd]; [|now apply IH].
    intros Hbad. apply Hinv in Hbad.
    destruct (Helpers.is_invalid c) eqn:E.
    + now rewrite is_invalid_underscore in Hbad.
    + now rewrite E in Hbad.
  - induction filename as [|c rest IH]; simpl; [reflexivity|]. rewrite IH. f_equal.
    destruct (Helpers.is_invalid c) eqn:E; [now rewrite is_invalid_underscore | now rewrite E].
  - induction filename as [|c rest IH];
      cbn [Helpers.sanitize_filename list_ascii_of_string]; [reflexivity|]. intros Hclean.
    rewrite IH by (intros d Hd; apply Hclean; now right). f_equal.
    destruct (Helpers.is_invalid c) eqn:E; [|reflexivity].
    exfalso. apply (Hclean c); [now left | now apply Hinv].
Qed.

(** X11. With a maximum of at least 3, a truncated text is never longer
    than the maximum; a text longer than the maximum becomes its first
    [max_length - 3] characters followed by three dots, exactly
    [max_length] characters long, and a text within the maximum is
    returned as it is. *)
Theorem truncate_text_within_max (text : string) (max_length : Z) :
  (3 <= max_length)%Z ->
  (Z.of_nat (String.length (Helpers.truncate_text text max_length)) <= max_length)%Z
  /\ ((Z.of_nat (String.length text) <= max_length)%Z ->
      Helpers.truncate_text text max_length = text)
  /\ ((max_length < Z.of_nat (String.length text))%Z ->
      Z.of_nat (String.length (Helpers.truncate_text text max_length)) = max_length
      /\ exists kept dropped,
           text = String.append kept dropped
           /\ Z.of_nat (String.length kept) = (max_length - 3)%Z
           /\ Helpers.truncate_text text max_length = String.append kept "...").
Proof.
  intros Hmax. unfold Helpers.truncate_text, Helpers.slice_to.
  destruct (Z.leb_spec (Z.of_nat (String.length text)) max_length) as [Hle|Hgt].
  - split; [assumption|]. split; [reflexivity | lia].
  - destruct (Z.ltb_spec (max_length - 3) 0) as [Hneg|Hpos]; [lia|].
    rewrite Z.min_l by lia.
    assert (Hlen : String.length (String.substring 0 (Z.to_nat (max_length - 3)) text)
                   = Z.to_nat (max_length - 3))
      by (rewrite length_substring_0; lia).
    split; [rewrite length_append, Hlen; simpl; lia|].
    split; [lia|]. intros _.
    split; [rewrite length_append, Hlen; simpl; lia|].
    destruct (substring_0_prefix (Z.to_nat (max_length - 3)) text) as [rest Hrest]; [lia|].
    exists (String.substring 0 (Z.to_nat (max_length - 3)) text), rest.
    split; [exact Hrest|]. split; [rewrite Hlen; lia | reflexivity].
Qed.

Lemma truncate_text_within_max_witness :
  (3 <= 10)%Z
  /\ (Z.of_nat (String.length
                  (Helpers.truncate_text "Do you agree with this policy?" 10)) <= 10)%Z.
Proof.
  split; [lia|].
  apply (truncate_text_within_max "Do you agree with this policy?" 10). lia.
Defined.

Example truncate_text_samples :
  Helpers.truncate_text "Do you agree with this policy?" 10 = "Do you ..."
  /\ Helpers.truncate_text "Do you agree?" 13 = "Do you agree?"
  /\ Helpers.truncate_text "abcdef" 2 = "abcde..."
  /\ Helpers.truncate_text "abcdef" (-1) = "ab...".
Proof. repeat split. Qed.

(** X12. With a maximum below 3, a text longer than the maximum is not
    shortened to it: the result has at least three characters, more than
    the maximum, and for a maximum of 0, 1 or 2 and a text of three or
    more characters it is longer than the text itself by the maximum. *)
Theorem truncate_text_small_max (text : string) (max_length : Z) :
  (max_length < 3)%Z ->
  (max_length < Z.of_nat (String.length text))%Z ->
  (max_length < Z.of_nat (String.length (Helpers.truncate_text text max_length)))%Z
  /\ ((0 <= max_length)%Z -> 3 <= String.length text ->
      Z.of_nat (String.length (Helpers.truncate_text text max_length))
      = (Z.of_nat (String.length text) + max_length)%Z).
Proof.
  intros Hmax Hlen. unfold Helpers.truncate_text, Helpers.slice_to.
  destruct (Z.leb_spec (Z.of_nat (String.length text)) max_length) as [Hle|Hgt]; [lia|].
  destruct (Z.ltb_spec (max_length - 3) 0) as [Hneg|Hpos]; [|lia].
  rewrite length_append, length_substring_0. simpl String.length. split; lia.
Qed.

Lemma truncate_text_small_max_witness :
  (2 < 3)%Z
  /\ (2 < Z.of_nat (String.length "abcdef"))%Z
  /\ (2 < Z.of_nat (String.length (Helpers.truncate_text "abcdef" 2)))%Z.
Proof.
  split; [lia|]. split; [simpl; lia|].
  apply (truncate_text_small_max "abcdef" 2); [lia | simpl; lia].
Defined.

(** ** The radio groups of a page *)

Section RadioOptions.

Import FormHandler.

Lemma extract_options_filter (radios : list WebElement) :
  extract_options_from_radio_group radios
  = filter (fun option_text => negb (String.eqb option_text ""))
           (map option_text_of radios).
Proof.
  induction radios as [|radio rest IH]; simpl; [reflexivity|].
  destruct (String.eqb (option_text_of radio) ""); simpl; now rewrite IH.
Qed.

Lemma extract_options_all_texts (radios : list WebElement) :
  (forall radio, In radio radios -> option_text_of radio <> "") ->
  extract_options_from_radio_group radios = map option_text_of radios.
Proof.
  induction radios as [|radio rest IH]; simpl; intros H; [reflexivity|].
  destruct (String.eqb_spec (option_text_of radio) "") as [E|_].
  - exfalso. apply (H radio); [now left | exact E].
  - f_equal. apply IH. intros r Hr. apply H. now right.
Qed.

Lemma extract_options_length (radios : list WebElement) :
  List.length (extract_options_from_radio_group radios) <= List.length radios.
Proof.
  rewrite extract_options_filter.
  rewrite <- (length_map option_text_of radios). apply filter_length_le.
Qed.

End RadioOptions.

(** X13. The options extracted from a group of radio buttons are the
    non-empty texts found for the buttons: no option is empty, each one
    is the text of a button of the group, and there are at most as many
    options as buttons. *)
Theorem extract_options_texts (radios : list FormHandler.WebElement) :
  (forall option_text,
      In option_text (FormHandler.extract_options_from_radio_group radios)
      <-> option_text <> ""
          /\ exists radio, In radio radios /\ FormHandler.option_text_of radio = option_text)
  /\ List.length (FormHandler.extract_options_from_radio_group radios) <= List.length radios.
Proof.
  split; [|apply extract_options_length].
  intros option_text. rewrite extract_options_filter, filter_In, in_map_iff.
  rewrite negb_true_iff, String.eqb_neq. split.
  - intros [(radio & Ht & Hin) Hne]. split; [exact Hne|]. now exists radio.
  - intros [Hne (radio & Hin & Ht)]. split; [now exists radio | exact Hne].
Qed.

(** X14. Options and buttons stay aligned exactly when a text is found
    for every button: then the option at a position is the text of the
    button at that position; as soon as one button has no text there are
    fewer options than buttons. *)
Theorem extract_options_aligned (radios : list FormHandler.WebElement) :
  (List.length (FormHandler.extract_options_from_radio_group radios) = List.length radios
   <-> forall radio, In radio radios -> FormHandler.option_text_of radio <> "")
  /\ ((forall radio, In radio radios -> FormHandler.option_text_of radio <> "") ->
      forall position radio option_text,
        nth_error radios position = Some radio ->
        nth_error (FormHandler.extract_options_from_radio_group radios) position
        = Some option_text ->
        FormHandler.option_text_of radio = option_text).
Proof.
  split; [split|].
  - induction radios as [|radio rest IH]; simpl; [intros _ r []|].
    pose proof (extract_options_length rest) as Hle.
    destruct (String.eqb_spec (FormHandler.option_text_of radio) "") as [E|E].
    + intros H. lia.
    + simpl. intros H r [<-|Hr]; [exact E|]. apply IH; [lia | exact Hr].
  - intros H. rewrite extract_options_all_texts by exact H. apply length_map.
  - intros H position radio option_text Hr Ho.
    rewrite extract_options_all_texts in Ho by exact H.
    rewrite nth_error_map, Hr in Ho. now injection Ho.
Qed.

(** A button without any text shifts the options: the option at
    position 0 belongs to the button at position 1. *)
Example options_shifted_by_bare_radio :
  let radios := bare_radio "policy" :: policy_radios in
  FormHandler.extract_options_from_radio_group radios
  = ["Strongly agree"; "Strongly disagree"; "No opinion"]
  /\ option_map FormHandler.option_text_of (nth_error radios 0) = Some ""
  /\ option_map FormHandler.option_text_of (nth_error radios 1) = Some "Strongly agree".
Proof. repeat split. Qed.

Section Grouping.

Import FormHandler.

(** The state of the dictionary [radio_groups] after the buttons
    [processed]: distinct keys, none empty; under each key the processed
    buttons of that name, in order, at least one; a key for every named
    button. *)
Let grouped (processed : list WebElement) (groups : list (string * list WebElement)) : Prop :=
  NoDup (map fst groups)
  /\ (forall key radios, In (key, radios) groups ->
        key <> "" /\ radios <> [] /\ radios = filter (has_name key) processed)
  /\ (forall radio key, In radio processed -> attr_name radio = Some key -> key <> "" ->
        In key (map fst groups)).

Lemma add_to_group_keys (key : string) (radio : WebElement)
    (groups : list (string * list WebElement)) :
  map fst (add_to_group key radio groups)
  = if Py.list_in key (map fst groups) then map fst groups else map fst groups ++ [key].
Proof.
  induction groups as [|[k rs] rest IH]; simpl; [reflexivity|].
  rewrite (String.eqb_sym key k).
  destruct (String.eqb k key); simpl; [reflexivity|].
  rewrite IH. unfold Py.list_in. now destruct (existsb (String.eqb key) (map fst rest)).
Qed.

Lemma add_to_group_entries (key : string) (radio : WebElement)
    (groups : list (string * list WebElement)) (k : string) (rs : list WebElement) :
  NoDup (map fst groups) ->
  In (k, rs) (add_to_group key radio groups) ->
  (k <> key /\ In (k, rs) groups)
  \/ (k = key /\ ((exists rs0, In (key, rs0) groups /\ rs = rs0 ++ [radio])
                  \/ (~ In key (map fst groups) /\ rs = [radio]))).
Proof.
  induction groups as [|[k0 rs0] rest IH]; simpl; intros Hnd Hin.
  - destruct Hin as [Hin|[]]. injection Hin as <- <-. right. split; [reflexivity|].
    right. split; [tauto | reflexivity].
  - inversion Hnd as [|? ? Hk0 Hrest]; subst.
    destruct (String.eqb_spec k0 key) as [->|Hne].
    + destruct Hin as [Hin|Hin].
      * injection Hin as <- <-. right. split; [reflexivity|]. left. exists rs0. auto.
      * left. split; [|now right]. intros ->. apply Hk0.
        change key with (fst (key, rs)). now apply in_map.
    + destruct Hin as [Hin|Hin].
      * injection Hin as <- <-. left. split; [exact Hne | now left].
      * destruct (IH Hrest Hin) as [[H1 H2]|[-> [(rs1 & H1 & H2)|[H1 H2]]]].
        -- left. auto.
        -- right. split; [reflexivity|]. left. exists rs1. auto.
        -- right. split; [reflexivity|]. right. split; [|exact H2].
           intros [H|H]; [congruence | contradiction].
Qed.

Lemma filter_none {A : Type} (p : A -> bool) (l : list A) :
  (forall x, In x l -> p x = false) -> filter p l = [].
Proof.
  induction l as [|x l IH]; simpl; intros H; [reflexivity|].
  rewrite (H x) by now left. apply IH. intros y Hy. apply H. now right.
Qed.

Lemma grouped_step (processed : list WebElement) (groups : list (string * list WebElement))
    (radio : WebElement) :
  grouped processed groups ->
  grouped (processed ++ [radio])
    (match attr_name radio with
     | Some key => if negb (String.eqb key "") then add_to_group key radio groups else groups
     | None => groups
     end).
Proof.
  intros (Hnd & Hentries & Hkeys).
  assert (Hskip : (forall key, key <> "" -> has_name key radio = false) ->
                  grouped (processed ++ [radio]) groups).
  { intros Hno. split; [exact Hnd|]. split.
    - intros key radios Hin. destruct (Hentries key radios Hin) as (H1 & H2 & H3).
      split; [exact H1|]. split; [exact H2|].
      rewrite filter_app. simpl. rewrite (Hno key H1). now rewrite app_nil_r.
    - intros r key Hr Hname Hkey. apply in_app_or in Hr. destruct Hr as [Hr|[<-|[]]].
      + now apply (Hkeys r).
      + specialize (Hno key Hkey). unfold has_name in Hno. rewrite Hname in Hno.
        now rewrite String.eqb_refl in Hno. }
  destruct (attr_name radio) as [key|] eqn:Hname.
  - destruct (String.eqb_spec key "") as [->|Hkey]; simpl.
    + apply Hskip. intros k Hk. unfold has_name. rewrite Hname.
      apply String.eqb_neq. congruence.
    + assert (Hhas : has_name key radio = true)
        by (unfold has_name; rewrite Hname; apply String.eqb_refl).
      split; [|split].
      * rewrite add_to_group_keys. destruct (Py.list_in key (map fst groups)) eqn:E;
          [exact Hnd|].
        apply NoDup_app; [exact Hnd | constructor; [tauto | constructor] |].
        intros k Hk [<-|[]]. apply list_in_iff in Hk. congruence.
      * intros k rs Hin.
        destruct (add_to_group_entries key radio groups k rs Hnd Hin)
          as [[Hne Hold]|[-> [(rs0 & Hold & ->)|[Hnew ->]]]].
        -- destruct (Hentries k rs Hold) as (H1 & H2 & H3).
           split; [exact H1|]. split; [exact H2|].
           rewrite filter_app. simpl.
           assert (has_name k radio = false) as ->
             by (unfold has_name; rewrite Hname; apply String.eqb_neq; congruence).
           now rewrite app_nil_r.
        -- destruct (Hentries key rs0 Hold) as (H1 & H2 & H3).
           split; [exact H1|]. split; [now destruct rs0|].
           rewrite filter_app. simpl. rewrite Hhas. now rewrite <- H3.
        -- split; [exact Hkey|]. split; [discriminate|].
           rewrite filter_app. simpl. rewrite Hhas.
           rewrite filter_none; [reflexivity|].
           intros r Hr. unfold has_name. destruct (attr_name r) as [n|] eqn:Hn; [|reflexivity].
           destruct (String.eqb_spec n key) as [->|]; [|reflexivity].
           exfalso. apply Hnew. now apply (Hkeys r key).
      * intros r k Hr Hn Hk. rewrite add_to_group_keys.
        assert (Hor : In k (map fst groups) \/ k = key).
        { apply in_app_or in Hr. destruct Hr as [Hr|[<-|[]]].
          - left. now apply (Hkeys r).
          - right. congruence. }
        destruct (Py.list_in key (map fst groups)) eqn:E.
        -- destruct Hor as [H | ->]; [exact H | now apply list_in_iff].
        -- apply in_or_app. destruct Hor as [H | ->]; [now left | right; now left].
  - apply Hskip. intros k Hk. unfold has_name. now rewrite Hname.
Qed.

Lemma grouped_fold (all processed : list WebElement)
    (groups : list (string * list WebElement)) :
  grouped processed groups ->
  grouped (processed ++ all)
    (fold_left (fun radio_groups radio =>
                  match attr_name radio with
                  | Some key =>
                      if negb (String.eqb key "") then add_to_group key radio radio_groups
                      else radio_groups
                  | None => radio_groups
                  end) all groups).
Proof.
  revert processed groups. induction all as [|radio rest IH]; intros processed groups H; simpl.
  - now rewrite app_nil_r.
  - replace (processed ++ radio :: rest) with ((processed ++ [radio]) ++ rest)
      by (rewrite <- app_assoc; reflexivity).
    apply IH. now apply grouped_step.
Qed.

(** The dictionary built by the first loop of [identify_radio_groups]. *)
Lemma group_by_name_spec (all : list WebElement) :
  NoDup (map fst (group_by_name all))
  /\ (forall key radios, In (key, radios) (group_by_name all) ->
        key <> "" /\ radios <> [] /\ radios = filter (has_name key) all)
  /\ (forall radio key, In radio all -> attr_name radio = Some key -> key <> "" ->
        In key (map fst (group_by_name all))).
Proof.
  apply (grouped_fold all [] []). split; [constructor|]. split.
  - intros key radios [].
  - intros radio key [].
Qed.

End Grouping.

Section Groups.

Import FormHandler.

Variable nlp : QuestionAnalyzer.t.
Variable extract_question_from_element : WebElement -> string.

(** An item of the dictionary gives no group or one group, of its name. *)
Lemma radio_group_of_item (key : string) (radios : list WebElement) (group : RadioGroup) :
  In group (radio_group_of extract_question_from_element (key, radios)) <->
  group = mkGroup key
            (match radios with
             | first :: _ => extract_question_from_element first
             | [] => ""
             end)
            (extract_options_from_radio_group radios) radios
  /\ 2 <= List.length radios
  /\ question group <> ""
  /\ options group <> [].
Proof.
  unfold FormHandler.radio_group_of.
  destruct (Nat.ltb_spec 1 (List.length radios)) as [Hlen|Hlen].
  - destruct radios as [|first rest]; [simpl in Hlen; lia|].
    destruct (String.eqb_spec (extract_question_from_element first) "") as [Hq|Hq];
      cbn [negb andb].
    + split; [intros [] | intros (-> & _ & H & _); now simpl in H].
    + destruct (extract_options_from_radio_group (first :: rest)) as [|o os] eqn:Ho;
        cbn [negb].
      * split; [intros [] | intros (-> & _ & _ & H); now simpl in H].
      * split.
        -- intros [<-|[]]. cbn [question options]. repeat split; [lia | exact Hq | discriminate].
        -- intros (-> & _). now left.
  - split; [intros [] | intros (_ & H & _); lia].
Qed.

Lemma identify_radio_groups_names (groups : list (string * list WebElement)) (group : RadioGroup) :
  In group (flat_map (radio_group_of extract_question_from_element) groups) -> In (name group) (map fst groups).
Proof.
  intros H. apply in_flat_map in H. destruct H as ([key radios] & Hitem & Hin).
  apply radio_group_of_item in Hin. destruct Hin as (-> & _).
  cbn [name]. change key with (fst (key, radios)). now apply in_map.
Qed.

Lemma identify_radio_groups_NoDup (groups : list (string * list WebElement)) :
  NoDup (map fst groups) -> NoDup (map name (flat_map (radio_group_of extract_question_from_element) groups)).
Proof.
  induction groups as [|[key radios] rest IH]; cbn [flat_map map fst]; intros Hnd;
    [constructor|].
  inversion Hnd as [|? ? Hkey Hrest]; subst. rewrite map_app.
  assert (Hone : radio_group_of extract_question_from_element (key, radios) = []
                 \/ exists group,
                      radio_group_of extract_question_from_element (key, radios) = [group]
                      /\ name group = key).
  { unfold FormHandler.radio_group_of. destruct (Nat.ltb 1 (List.length radios)); [|now left].
    destruct radios as [|first tail]; [now left|].
    destruct (negb (String.eqb (extract_question_from_element first) "")
              && negb match extract_options_from_radio_group (first :: tail) with
                      | [] => true
                      | _ :: _ => false
                      end); [|now left].
    right. eexists. split; reflexivity. }
  destruct Hone as [-> | (group & -> & Hname)]; simpl; [now apply IH|].
  constructor; [|now apply IH].
  rewrite Hname. intros Hin. apply in_map_iff in Hin. destruct Hin as (g & Hg & Hin).
  apply identify_radio_groups_names in Hin. congruence.
Qed.

(** The ranker on a non-empty list of options: a position of the list,
    and a confidence in the unit interval. *)
Lemma ranker_on_options (question_text : string) (option_texts : list string) :
  option_texts <> [] ->
  exists best_index confidence option_text,
    predict_best_answer nlp question_text option_texts = Ok (best_index, confidence)
    /\ nth_error option_texts best_index = Some option_text
    /\ unit_interval confidence.
Proof.
  intros Hne.
  destruct (predict_best_answer_scores nlp question_text option_texts)
    as (value & Hvalue & Hrun).
  destruct (PyFacts.argmax_first (map value option_texts)) as (i & c & Hi & Hc & _).
  - destruct option_texts; [congruence | discriminate].
  - apply Forall_forall. intros s Hs. apply in_map_iff in Hs.
    destruct Hs as (o & <- & _). apply FloatOrder.unit_interval_ordered, Hvalue.
  - rewrite nth_error_map in Hc.
    destruct (nth_error option_texts i) as [o|] eqn:Ho; [|discriminate].
    injection Hc as <-. exists i, (value o), o.
    split; [now rewrite Hrun, Hi|]. split; [exact Ho | apply Hvalue].
Qed.

(** Whatever the ranker returns is a position of the options with a
    confidence in the unit interval. *)
Lemma ranker_result (question_text : string) (option_texts : list string)
    (best_index : nat) (conf : float) :
  predict_best_answer nlp question_text option_texts = Ok (best_index, conf) ->
  (exists option_text, nth_error option_texts best_index = Some option_text)
  /\ unit_interval conf.
Proof.
  intros Hrun. destruct option_texts as [|o os]; [discriminate|].
  destruct (ranker_on_options question_text (o :: os)) as (i & c & ot & Hi & Ho & Hc);
    [discriminate|].
  rewrite Hi in Hrun. injection Hrun as <- <-. eauto.
Qed.

(** The three ways a group leaves the dictionary [actions]. *)
Lemma answer_group_cases (actions : Actions) (group : RadioGroup) :
  answer_group nlp actions group = actions
  \/ answer_group nlp actions group = count_answer actions
  \/ exists option_text conf,
       answer_group nlp actions group
       = record_detail (count_answer actions)
           (mkDetail "radio" (question group) option_text conf)
       /\ In option_text (options group)
       /\ unit_interval conf.
Proof.
  unfold answer_group.
  destruct (predict_best_answer nlp (question group) (options group))
    as [[best_index conf]|exc] eqn:Hrun; [|now left].
  destruct (ranker_result _ _ _ _ Hrun) as [[option_text Ho] Hconf].
  destruct (Nat.ltb best_index (List.length (elements group))); [|now left].
  destruct (nth_error (elements group) best_index) as [element|]; [|now left].
  destruct (scroll_into_view element); [|now left].
  destruct (click element).
  - rewrite Ho. right. right. exists option_text, conf.
    split; [reflexivity|]. split; [now apply nth_error_In with best_index | exact Hconf].
  - destruct (script_click element); [right; now left | now left].
  - now left.
Qed.

End Groups.

(** What [auto_fill_form] relies on in a group: options extracted from its
    elements, at least one, and elements that are buttons of the page. *)
Lemma identify_radio_groups_sound
    (extract_question_from_element : FormHandler.WebElement -> string)
    (all_radio_buttons : list FormHandler.WebElement) (group : FormHandler.RadioGroup) :
  In group (FormHandler.identify_radio_groups extract_question_from_element all_radio_buttons) ->
  FormHandler.options group
  = FormHandler.extract_options_from_radio_group (FormHandler.elements group)
  /\ FormHandler.options group <> []
  /\ forall element, In element (FormHandler.elements group) -> In element all_radio_buttons.
Proof.
  unfold FormHandler.identify_radio_groups. rewrite in_flat_map.
  intros ([key radios] & Hitem & Hin).
  apply radio_group_of_item in Hin. destruct Hin as (-> & _ & _ & Ho).
  cbn [FormHandler.options FormHandler.elements] in *.
  split; [reflexivity|]. split; [exact Ho|].
  destruct (group_by_name_spec all_radio_buttons) as (_ & Hentries & _).
  destruct (Hentries key radios Hitem) as (_ & _ & ->).
  intros element He. now apply filter_In in He.
Qed.

(** X15. The radio groups of a page: a group is returned exactly for each
    non-empty name carried by two or more radio buttons whose first
    button has a question and for which some option text is found; its
    elements are all the buttons of that name in page order, its options
    are extracted from them, and no two groups share a name. *)
Theorem identify_radio_groups_spec
    (extract_question_from_element : FormHandler.WebElement -> string)
    (all_radio_buttons : list FormHandler.WebElement) :
  let groups :=
    FormHandler.identify_radio_groups extract_question_from_element all_radio_buttons in
  NoDup (map FormHandler.name groups)
  /\ forall group,
       In group groups
       <-> FormHandler.name group <> ""
           /\ FormHandler.elements group
              = filter (has_name (FormHandler.name group)) all_radio_buttons
           /\ 2 <= List.length (FormHandler.elements group)
           /\ (exists first rest,
                  FormHandler.elements group = first :: rest
                  /\ FormHandler.question group = extract_question_from_element first)
           /\ FormHandler.question group <> ""
           /\ FormHandler.options group
              = FormHandler.extract_options_from_radio_group (FormHandler.elements group)
           /\ FormHandler.options group <> [].
Proof.
  intros groups. unfold groups, FormHandler.identify_radio_groups.
  destruct (group_by_name_spec all_radio_buttons) as (Hnd & Hentries & Hkeys).
  split; [now apply identify_radio_groups_NoDup|].
  intros group. rewrite in_flat_map. split.
  - intros ([key radios] & Hitem & Hin).
    apply radio_group_of_item in Hin. destruct Hin as (Hg & Hlen & Hq & Ho).
    destruct (Hentries key radios Hitem) as (Hkey & Hne & Hfilter).
    subst group. cbn [FormHandler.name FormHandler.elements FormHandler.question
                      FormHandler.options] in *.
    split; [exact Hkey|]. split; [exact Hfilter|]. split; [exact Hlen|].
    split; [|now repeat split].
    destruct radios as [|first rest]; [contradiction|]. now exists first, rest.
  - intros (Hname & Hels & Hlen & (first & rest & Hfirst & Hquestion) & Hq & Hopts & Hne).
    assert (Hin : In first (filter (has_name (FormHandler.name group)) all_radio_buttons))
      by (rewrite <- Hels, Hfirst; now left).
    apply filter_In in Hin. destruct Hin as [Hin Hhas].
    assert (Hattr : FormHandler.attr_name first = Some (FormHandler.name group)).
    { unfold has_name in Hhas. destruct (FormHandler.attr_name first) as [n|]; [|discriminate].
      apply String.eqb_eq in Hhas. now subst. }
    pose proof (Hkeys first _ Hin Hattr Hname) as Hkey.
    apply in_map_iff in Hkey. destruct Hkey as ([key radios] & Hfst & Hitem).
    simpl in Hfst. subst key.
    destruct (Hentries _ _ Hitem) as (_ & _ & Hfilter).
    exists (FormHandler.name group, radios). split; [exact Hitem|].
    apply radio_group_of_item.
    assert (radios = FormHandler.elements group) as -> by congruence.
    split; [|now repeat split].
    destruct group as [n q o e]. cbn [FormHandler.name FormHandler.elements
      FormHandler.question FormHandler.options] in *.
    rewrite <- Hopts, Hquestion, Hfirst. reflexivity.
Qed.

(** X16. On every group returned by [identify_radio_groups] the ranker
    succeeds: it raises neither [ValueError] nor anything else, its index
    is a position of the options and of the elements of the group, so
    the bounds test of [auto_fill_form] holds, and its confidence lies
    between 0.0 and 1.0. *)
Theorem ranker_succeeds_on_groups
    (nlp : QuestionAnalyzer.t)
    (extract_question_from_element : FormHandler.WebElement -> string)
    (all_radio_buttons : list FormHandler.WebElement) (group : FormHandler.RadioGroup) :
  In group (FormHandler.identify_radio_groups extract_question_from_element all_radio_buttons) ->
  exists best_index conf option_text element,
    predict_best_answer nlp (FormHandler.question group) (FormHandler.options group)
    = Ok (best_index, conf)
    /\ Nat.ltb best_index (List.length (FormHandler.elements group)) = true
    /\ nth_error (FormHandler.options group) best_index = Some option_text
    /\ nth_error (FormHandler.elements group) best_index = Some element
    /\ PrimFloat.leb 0.0%float conf = true
    /\ PrimFloat.leb conf 1.0%float = true.
Proof.
  intros Hin.
  apply identify_radio_groups_sound in Hin. destruct Hin as (Hopts & Hne & _).
  destruct (ranker_on_options nlp (FormHandler.question group) (FormHandler.options group) Hne)
    as (i & c & o & Hrun & Ho & H0 & H1).
  assert (Hi : i < List.length (FormHandler.elements group)).
  { assert (i < List.length (FormHandler.options group))
      by (apply nth_error_Some; congruence).
    pose proof (extract_options_length (FormHandler.elements group)) as Hle.
    rewrite <- Hopts in Hle. lia. }
  destruct (nth_error (FormHandler.elements group) i) as [element|] eqn:He;
    [|apply nth_error_None in He; lia].
  exists i, c, o, element. repeat split; auto. now apply Nat.ltb_lt.
Qed.

Lemma ranker_succeeds_on_groups_witness :
  exists group best_index conf,
    In group (FormHandler.identify_radio_groups (fun _ => "Do you agree with this policy?")
                policy_radios)
    /\ predict_best_answer fallback_analyzer (FormHandler.question group)
         (FormHandler.options group)
       = Ok (best_index, conf).
Proof.
  eexists. 
  assert (Hin : In (FormHandler.mkGroup "policy" "Do you agree with this policy?"
                      ["Strongly agree"; "Strongly disagree"; "No opinion"] policy_radios)
                   (FormHandler.identify_radio_groups
                      (fun _ => "Do you agree with this policy?") policy_radios))
    by (left; reflexivity).
  destruct (ranker_succeeds_on_groups fallback_analyzer
              (fun _ => "Do you agree with this policy?") policy_radios _ Hin)
    as (i & c & _ & _ & Hrun & _).
  exists i, c. split; [exact Hin | exact Hrun].
Defined.

(** ** The radio loop of [auto_fill_form] *)

Section AutoFill.

Import FormHandler.

Variable nlp : QuestionAnalyzer.t.

(** What the loop over the groups does to the dictionary [actions]. *)
Lemma answer_groups_counters (groups : list RadioGroup) (actions : Actions) :
  let after := fold_left (answer_group nlp) groups actions in
  radio_groups_answered actions <= radio_groups_answered after
  /\ radio_groups_answered after <= radio_groups_answered actions + List.length groups
  /\ checkboxes_checked after = checkboxes_checked actions
  /\ text_inputs_filled after = text_inputs_filled actions
  /\ dropdowns_selected after = dropdowns_selected actions
  /\ textareas_filled after = textareas_filled actions
  /\ submitted after = submitted actions
  /\ exists added,
       details after = details actions ++ added
       /\ List.length added + radio_groups_answered actions <= radio_groups_answered after
       /\ Forall (fun detail =>
                    detail_type detail = "radio"
                    /\ unit_interval (confidence detail)
                    /\ exists group,
                         In group groups
                         /\ detail_question detail = question group
                         /\ In (selected_option detail) (options group))
                 added.
Proof.
  revert actions. induction groups as [|group rest IH]; intros actions; cbn [fold_left].
  - cbv zeta. do 7 (split; [first [lia | reflexivity]|]).
    exists []. rewrite app_nil_r. split; [reflexivity|]. split; [simpl; lia | constructor].
  - specialize (IH (answer_group nlp actions group)). cbv zeta in IH.
    destruct IH as (H1 & H2 & H3 & H4 & H5 & H6 & H7 & added & Hd & Hlen & Hall).
    assert (Hweaken : Forall (fun detail =>
                    detail_type detail = "radio"
                    /\ unit_interval (confidence detail)
                    /\ exists g,
                         In g (group :: rest)
                         /\ detail_question detail = question g
                         /\ In (selected_option detail) (options g)) added).
    { eapply Forall_impl; [|exact Hall]. intros d (Ht & Hc & g & Hg & Hq & Ho).
      split; [exact Ht|]. split; [exact Hc|]. exists g. split; [now right | auto]. }
    cbv zeta.
    destruct (answer_group_cases nlp actions group)
      as [E | [E | (option_text & conf & E & Ho & Hc)]];
      rewrite E in *; cbn [radio_groups_answered checkboxes_checked text_inputs_filled
        dropdowns_selected textareas_filled submitted details count_answer record_detail
        List.length] in *.
    + do 7 (split; [first [lia | assumption]|]).
      exists added. split; [exact Hd|]. split; [lia | exact Hweaken].
    + do 7 (split; [first [lia | assumption]|]).
      exists added. split; [exact Hd|]. split; [lia | exact Hweaken].
    + do 7 (split; [first [lia | assumption]|]).
      exists (mkDetail "radio" (question group) option_text conf :: added).
      split; [rewrite Hd, <- app_assoc; reflexivity|]. split; [simpl; lia|].
      constructor; [|exact Hweaken].
      cbn [detail_type confidence detail_question selected_option].
      split; [reflexivity|]. split; [exact Hc|]. exists group. split; [now left | auto].
Qed.

(** A group whose chosen element scrolls and clicks is counted and
    recorded. *)
Lemma answer_group_clicked (actions : Actions) (group : RadioGroup)
    (best_index : nat) (conf : float) (option_text : string) (element : WebElement) :
  predict_best_answer nlp (question group) (options group) = Ok (best_index, conf) ->
  nth_error (options group) best_index = Some option_text ->
  nth_error (elements group) best_index = Some element ->
  scroll_into_view element = Ok tt -> click element = Clicked ->
  answer_group nlp actions group
  = record_detail (count_answer actions) (mkDetail "radio" (question group) option_text conf).
Proof.
  intros Hrun Ho He Hscroll Hclick. unfold answer_group. rewrite Hrun.
  assert (Hlt : best_index < List.length (elements group))
    by (apply nth_error_Some; congruence).
  apply Nat.ltb_lt in Hlt. now rewrite Hlt, He, Hscroll, Hclick, Ho.
Qed.

Lemma submit_form_keeps (submit_buttons : result (list WebElement)) (actions : Actions) :
  let after := submit_form submit_buttons actions in
  radio_groups_answered after = radio_groups_answered actions
  /\ checkboxes_checked after = checkboxes_checked actions
  /\ text_inputs_filled after = text_inputs_filled actions
  /\ dropdowns_selected after = dropdowns_selected actions
  /\ textareas_filled after = textareas_filled actions
  /\ details after = details actions
  /\ (submitted after = true ->
      submitted actions = true
      \/ exists button others,
           submit_buttons = Ok (button :: others)
           /\ scroll_into_view button = Ok tt /\ click button = Clicked).
Proof.
  unfold submit_form.
  destruct submit_buttons as [[|button others]|exc]; cbv zeta; try tauto.
  destruct (scroll_into_view button) as [[]|exc] eqn:Hs; try tauto.
  destruct (click button) eqn:Hc; try tauto.
  cbn [set_submitted radio_groups_answered checkboxes_checked text_inputs_filled
       dropdowns_selected textareas_filled details submitted].
  repeat split; auto. intros _. right. now exists button, others.
Qed.

End AutoFill.

(** X17. The summary of [auto_fill_form]: at most one answer is counted
    per radio group, at most one detail is recorded per counted answer,
    the other counters stay 0, every detail is of type radio, names an
    option of a group of the page under that group's question and has a
    confidence between 0.0 and 1.0, and [submitted] is set only when
    submission was requested and the first submit button scrolled into
    view and clicked. *)
Theorem auto_fill_form_summary
    (nlp : QuestionAnalyzer.t)
    (extract_question_from_element : FormHandler.WebElement -> string)
    (all_radio_buttons : list FormHandler.WebElement)
    (submit_buttons : result (list FormHandler.WebElement)) (submit : bool) :
  let groups :=
    FormHandler.identify_radio_groups extract_question_from_element all_radio_buttons in
  let actions :=
    FormHandler.auto_fill_form nlp extract_question_from_element all_radio_buttons
      submit_buttons submit in
  FormHandler.radio_groups_answered actions <= List.length groups
  /\ List.length (FormHandler.details actions) <= FormHandler.radio_groups_answered actions
  /\ FormHandler.checkboxes_checked actions = 0
  /\ FormHandler.text_inputs_filled actions = 0
  /\ FormHandler.dropdowns_selected actions = 0
  /\ FormHandler.textareas_filled actions = 0
  /\ (forall detail, In detail (FormHandler.details actions) ->
        FormHandler.detail_type detail = "radio"
        /\ PrimFloat.leb 0.0%float (FormHandler.confidence detail) = true
        /\ PrimFloat.leb (FormHandler.confidence detail) 1.0%float = true
        /\ exists group,
             In group groups
             /\ FormHandler.detail_question detail = FormHandler.question group
             /\ In (FormHandler.selected_option detail) (FormHandler.options group))
  /\ (FormHandler.submitted actions = true ->
      submit = true
      /\ exists button others,
           submit_buttons = Ok (button :: others)
           /\ FormHandler.scroll_into_view button = Ok tt
           /\ FormHandler.click button = FormHandler.Clicked).
Proof.
  intros groups actions.
  pose proof (answer_groups_counters nlp groups FormHandler.initial_actions) as Hloop.
  cbv zeta in Hloop.
  destruct Hloop as (_ & H2 & H3 & H4 & H5 & H6 & H7 & added & Hd & Hlen & Hall).
  cbn [FormHandler.initial_actions FormHandler.radio_groups_answered
       FormHandler.checkboxes_checked FormHandler.text_inputs_filled
       FormHandler.dropdowns_selected FormHandler.textareas_filled FormHandler.submitted
       FormHandler.details app] in *.
  assert (Hdetails : forall detail, In detail added ->
        FormHandler.detail_type detail = "radio"
        /\ PrimFloat.leb 0.0%float (FormHandler.confidence detail) = true
        /\ PrimFloat.leb (FormHandler.confidence detail) 1.0%float = true
        /\ exists group,
             In group groups
             /\ FormHandler.detail_question detail = FormHandler.question group
             /\ In (FormHandler.selected_option detail) (FormHandler.options group)).
  { intros detail Hin. rewrite Forall_forall in Hall.
    destruct (Hall detail Hin) as (Ht & [H0 H1] & Hg). auto. }
  unfold actions, FormHandler.auto_fill_form. fold groups.
  destruct submit.
  - pose proof (submit_form_keeps submit_buttons
                  (fold_left (FormHandler.answer_group nlp) groups FormHandler.initial_actions))
      as Hsub.
    cbv zeta in Hsub. destruct Hsub as (S1 & S2 & S3 & S4 & S5 & S6 & S7).
    rewrite S1, S2, S3, S4, S5, S6, Hd.
    repeat split; try lia; try assumption.
    + now apply Hdetails.
    + now apply Hdetails.
    + now apply Hdetails.
    + now apply Hdetails.
    + destruct (S7 H) as [Hs|Hs]; [congruence | exact Hs].
  - rewrite Hd. repeat split; try lia; try assumption; try (now apply Hdetails); congruence.
Qed.

Section AllAnswered.

Import FormHandler.

Variable nlp : QuestionAnalyzer.t.

(** The detail recorded for a group: its question, the option at the
    ranker's index and the ranker's confidence. *)
Let recorded (group : RadioGroup) (detail : Detail) : Prop :=
  detail_type detail = "radio"
  /\ detail_question detail = question group
  /\ exists best_index,
       predict_best_answer nlp (question group) (options group)
       = Ok (best_index, confidence detail)
       /\ nth_error (options group) best_index = Some (selected_option detail).

Lemma answer_groups_all_clicked (groups : list RadioGroup) (actions : Actions) :
  (forall group, In group groups ->
     options group <> []
     /\ List.length (options group) <= List.length (elements group)
     /\ forall element, In element (elements group) ->
          scroll_into_view element = Ok tt /\ click element = Clicked) ->
  let after := fold_left (answer_group nlp) groups actions in
  radio_groups_answered after = radio_groups_answered actions + List.length groups
  /\ exists added,
       details after = details actions ++ added /\ Forall2 recorded groups added.
Proof.
  revert actions. induction groups as [|group rest IH]; intros actions Hgroups; cbn [fold_left].
  - cbv zeta. split; [simpl; lia|]. exists []. rewrite app_nil_r. split; [reflexivity | constructor].
  - destruct (Hgroups group (or_introl eq_refl)) as (Hne & Hlen & Hclicks).
    destruct (ranker_on_options nlp (question group) (options group) Hne)
      as (i & c & o & Hrun & Ho & _).
    assert (Hi : i < List.length (elements group)).
    { assert (i < List.length (options group)) by (apply nth_error_Some; congruence). lia. }
    destruct (nth_error (elements group) i) as [element|] eqn:He;
      [|apply nth_error_None in He; lia].
    destruct (Hclicks element (nth_error_In _ _ He)) as [Hscroll Hclick].
    rewrite (answer_group_clicked nlp actions group i c o element Hrun Ho He Hscroll Hclick).
    destruct (IH (record_detail (count_answer actions)
                    (mkDetail "radio" (question group) o c)))
      as (Hcount & added & Hd & Hall).
    { intros g Hg. apply Hgroups. now right. }
    cbn [radio_groups_answered details record_detail count_answer List.length] in *.
    split; [lia|].
    exists (mkDetail "radio" (question group) o c :: added).
    split; [rewrite Hd, <- app_assoc; reflexivity|].
    constructor; [|exact Hall].
    split; [reflexivity|]. split; [reflexivity|]. exists i. now split.
Qed.

End AllAnswered.

(** X18. When every radio button of the page scrolls into view and
    clicks, [auto_fill_form] answers every radio group: the count of
    answers is the number of groups, and the details are, group by group
    in order, the group's question, the option at the ranker's index and
    the ranker's confidence. *)
Theorem auto_fill_form_answers_all
    (nlp : QuestionAnalyzer.t)
    (extract_question_from_element : FormHandler.WebElement -> string)
    (all_radio_buttons : list FormHandler.WebElement)
    (submit_buttons : result (list FormHandler.WebElement)) (submit : bool) :
  (forall radio, In radio all_radio_buttons ->
     FormHandler.scroll_into_view radio = Ok tt
     /\ FormHandler.click radio = FormHandler.Clicked) ->
  let groups :=
    FormHandler.identify_radio_groups extract_question_from_element all_radio_buttons in
  let actions :=
    FormHandler.auto_fill_form nlp extract_question_from_element all_radio_buttons
      submit_buttons submit in
  FormHandler.radio_groups_answered actions = List.length groups
  /\ Forall2 (fun group detail =>
                FormHandler.detail_type detail = "radio"
                /\ FormHandler.detail_question detail = FormHandler.question group
                /\ exists best_index,
                     predict_best_answer nlp (FormHandler.question group)
                       (FormHandler.options group)
                     = Ok (best_index, FormHandler.confidence detail)
                     /\ nth_error (FormHandler.options group) best_index
                        = Some (FormHandler.selected_option detail))
             groups (FormHandler.details actions).
Proof.
  intros Hclicks groups actions.
  destruct (answer_groups_all_clicked nlp groups FormHandler.initial_actions)
    as (Hcount & added & Hd & Hall).
  { intros group Hin. apply identify_radio_groups_sound in Hin.
    destruct Hin as (Hopts & Hne & Hels).
    split; [exact Hne|]. split.
    - rewrite Hopts. apply extract_options_length.
    - intros element He. apply Hclicks. now apply Hels. }
  cbn [FormHandler.initial_actions FormHandler.radio_groups_answered FormHandler.details app]
    in *.
  unfold actions, FormHandler.auto_fill_form. fold groups.
  destruct submit.
  - pose proof (submit_form_keeps submit_buttons
                  (fold_left (FormHandler.answer_group nlp) groups FormHandler.initial_actions))
      as Hsub.
    cbv zeta in Hsub. destruct Hsub as (S1 & _ & _ & _ & _ & S6 & _).
    rewrite S1, S6, Hd. split; [exact Hcount | exact Hall].
  - rewrite Hd. split; [exact Hcount | exact Hall].
Qed.

Lemma auto_fill_form_answers_all_witness :
  (forall radio, In radio policy_radios ->
     FormHandler.scroll_into_view radio = Ok tt
     /\ FormHandler.click radio = FormHandler.Clicked)
  /\ FormHandler.radio_groups_answered
       (FormHandler.auto_fill_form fallback_analyzer
          (fun _ => "Do you agree with this policy?") policy_radios (Ok []) false)
     = 1.
Proof.
  assert (H : forall radio, In radio policy_radios ->
     FormHandler.scroll_into_view radio = Ok tt
     /\ FormHandler.click radio = FormHandler.Clicked).
  { intros radio [<-|[<-|[<-|[]]]]; split; reflexivity. }
  split; [exact H|].
  apply (auto_fill_form_answers_all fallback_analyzer
           (fun _ => "Do you agree with this policy?") policy_radios (Ok []) false H).
Defined.

(** The sample page: one group, answered with its first option. *)
Example auto_fill_sample_page :
  FormHandler.auto_fill_form fallback_analyzer
    (fun _ => "Do you agree with this policy?") policy_radios (Ok []) true
  = FormHandler.mkActions 1 0 0 0 0 false
      [FormHandler.mkDetail "radio" "Do you agree with this policy?" "Strongly agree"
         0.9%float].
Proof. vm_compute. reflexivity. Qed.
